(** * ChatPage: the conversation session and message-reconciliation engine

    A shallow embedding of [frontend/src/components/ChatPage.jsx]: the React
    component state, the handlers [checkSessionChange], [loadChatHistory],
    [sendMessage], [saveEditedMessage] and [startNewChat], the controls of
    the render that invoke them, and the event loop that interleaves user
    events, the 500 ms poll and the completion of network requests.

    Every [async] handler is split at its single suspension point: the
    synchronous prefix (up to the first [await fetch]) and the resumption
    (everything after it, with [catch] and [finally]).  The values a
    resumption reads from its closure are stored in the continuation. *)

From stdpp Require Import base decidable option list strings pretty.
From Stdlib Require Import ZArith Lia.

Open Scope string_scope.
Open Scope list_scope.

(** ** JavaScript values *)

(** The JSON primitives that flow through the component.  Numbers are the
    integers (ids and millisecond counts). *)
Inductive jsval :=
| JUndefined
| JNull
| JBool (b : bool)
| JNum (n : Z)
| JStr (s : string).

#[global] Instance jsval_eq_dec : EqDecision jsval.
Proof. solve_decision. Defined.

(** [ToBoolean]: the test behind [!x], [x || y] and [x && y]. *)
Definition truthy (v : jsval) : bool :=
  match v with
  | JUndefined | JNull => false
  | JBool b => b
  | JNum n => negb (n =? 0)%Z
  | JStr s => negb (String.eqb s "")
  end.

(** [x || y] *)
Definition js_or (x y : jsval) : jsval := if truthy x then x else y.

(** [String(x)], the coercion applied by [localStorage.setItem]. *)
Definition to_string (v : jsval) : string :=
  match v with
  | JUndefined => "undefined"
  | JNull => "null"
  | JBool true => "true"
  | JBool false => "false"
  | JNum n => pretty n
  | JStr s => s
  end.

(** [localStorage.getItem] answers [null] or a string. *)
Definition of_storage (o : option string) : jsval :=
  match o with
  | None => JNull
  | Some s => JStr s
  end.

(** White space as [String.prototype.trim] sees it, on the ASCII range. *)
Definition is_ws (a : Ascii.ascii) : bool :=
  match Ascii.nat_of_ascii a with
  | 9 | 10 | 11 | 12 | 13 | 32 => true
  | _ => false
  end.

(** [!s.trim()]: the trimmed string is empty exactly when every character
    is white space. *)
Fixpoint blank (s : string) : bool :=
  match s with
  | EmptyString => true
  | String a r => is_ws a && blank r
  end.

(** ** Data model *)

(** [selectedDb] only ever holds ['local'] or ['shared']. *)
Inductive DbScope := Local | Shared.

Definition scope_js (d : DbScope) : jsval :=
  match d with
  | Local => JStr "local"
  | Shared => JStr "shared"
  end.

(** The [sources] array is passed through untouched; [None] is an absent
    (or null) field. *)
Definition Sources := option (list string).

(** One entry of [messages]. *)
Record Message := {
  role : jsval;
  content : jsval;
  sources : Sources;
  responseTime : jsval;
  dbScope : jsval
}.

Definition set_content (c : jsval) (m : Message) : Message :=
  {| role := role m; content := c; sources := sources m;
     responseTime := responseTime m; dbScope := dbScope m |}.

(** Calls of [setMessages], by call site; kept as a ghost log. *)
Inductive TOp :=
| OpReset                                 (* setMessages([]) *)
| OpAppend (m : Message)                  (* setMessages(prev => [...prev, m]) *)
| OpReplaceAll (l : list Message)         (* setMessages(loadedMessages) *)
| OpEditTruncate (l : list Message).      (* setMessages(updated) *)

(** The component state, the ref [previousSessionRef], and the
    [lastSessionId] entry of [localStorage]. *)
Record State := {
  messages : list Message;
  input : string;
  loading : bool;
  sessionId : jsval;
  loadingHistory : bool;
  selectedDb : DbScope;
  editingIndex : option nat;
  editingText : string;
  isRegenerating : bool;
  previousSessionRef : jsval;
  lastSessionId : option string;
  oplog : list TOp
}.

Definition initial (stored : option string) : State :=
  {| messages := []; input := ""; loading := false; sessionId := JNull;
     loadingHistory := false; selectedDb := Local; editingIndex := None;
     editingText := ""; isRegenerating := false;
     previousSessionRef := JNull; lastSessionId := stored; oplog := [] |}.

(** *** Setters *)

Definition setMessages (op : TOp) (l : list Message) (s : State) : State :=
  {| messages := l; input := input s; loading := loading s;
     sessionId := sessionId s; loadingHistory := loadingHistory s;
     selectedDb := selectedDb s; editingIndex := editingIndex s;
     editingText := editingText s; isRegenerating := isRegenerating s;
     previousSessionRef := previousSessionRef s;
     lastSessionId := lastSessionId s; oplog := oplog s ++ [op] |}.

Definition reset_messages (s : State) : State := setMessages OpReset [] s.

Definition append_message (m : Message) (s : State) : State :=
  setMessages (OpAppend m) (messages s ++ [m]) s.

Definition setInput (t : string) (s : State) : State :=
  {| messages := messages s; input := t; loading := loading s;
     sessionId := sessionId s; loadingHistory := loadingHistory s;
     selectedDb := selectedDb s; editingIndex := editingIndex s;
     editingText := editingText s; isRegenerating := isRegenerating s;
     previousSessionRef := previousSessionRef s;
     lastSessionId := lastSessionId s; oplog := oplog s |}.

Definition setLoading (b : bool) (s : State) : State :=
  {| messages := messages s; input := input s; loading := b;
     sessionId := sessionId s; loadingHistory := loadingHistory s;
     selectedDb := selectedDb s; editingIndex := editingIndex s;
     editingText := editingText s; isRegenerating := isRegenerating s;
     previousSessionRef := previousSessionRef s;
     lastSessionId := lastSessionId s; oplog := oplog s |}.

Definition setSessionId (v : jsval) (s : State) : State :=
  {| messages := messages s; input := input s; loading := loading s;
     sessionId := v; loadingHistory := loadingHistory s;
     selectedDb := selectedDb s; editingIndex := editingIndex s;
     editingText := editingText s; isRegenerating := isRegenerating s;
     previousSessionRef := previousSessionRef s;
     lastSessionId := lastSessionId s; oplog := oplog s |}.

Definition setLoadingHistory (b : bool) (s : State) : State :=
  {| messages := messages s; input := input s; loading := loading s;
     sessionId := sessionId s; loadingHistory := b;
     selectedDb := selectedDb s; editingIndex := editingIndex s;
     editingText := editingText s; isRegenerating := isRegenerating s;
     previousSessionRef := previousSessionRef s;
     lastSessionId := lastSessionId s; oplog := oplog s |}.

Definition setSelectedDb (d : DbScope) (s : State) : State :=
  {| messages := messages s; input := input s; loading := loading s;
     sessionId := sessionId s; loadingHistory := loadingHistory s;
     selectedDb := d; editingIndex := editingIndex s;
     editingText := editingText s; isRegenerating := isRegenerating s;
     previousSessionRef := previousSessionRef s;
     lastSessionId := lastSessionId s; oplog := oplog s |}.

Definition setEditingIndex (i : option nat) (s : State) : State :=
  {| messages := messages s; input := input s; loading := loading s;
     sessionId := sessionId s; loadingHistory := loadingHistory s;
     selectedDb := selectedDb s; editingIndex := i;
     editingText := editingText s; isRegenerating := isRegenerating s;
     previousSessionRef := previousSessionRef s;
     lastSessionId := lastSessionId s; oplog := oplog s |}.

Definition setEditingText (t : string) (s : State) : State :=
  {| messages := messages s; input := input s; loading := loading s;
     sessionId := sessionId s; loadingHistory := loadingHistory s;
     selectedDb := selectedDb s; editingIndex := editingIndex s;
     editingText := t; isRegenerating := isRegenerating s;
     previousSessionRef := previousSessionRef s;
     lastSessionId := lastSessionId s; oplog := oplog s |}.

Definition setIsRegenerating (b : bool) (s : State) : State :=
  {| messages := messages s; input := input s; loading := loading s;
     sessionId := sessionId s; loadingHistory := loadingHistory s;
     selectedDb := selectedDb s; editingIndex := editingIndex s;
     editingText := editingText s; isRegenerating := b;
     previousSessionRef := previousSessionRef s;
     lastSessionId := lastSessionId s; oplog := oplog s |}.

Definition set_previousSessionRef (v : jsval) (s : State) : State :=
  {| messages := messages s; input := input s; loading := loading s;
     sessionId := sessionId s; loadingHistory := loadingHistory s;
     selectedDb := selectedDb s; editingIndex := editingIndex s;
     editingText := editingText s; isRegenerating := isRegenerating s;
     previousSessionRef := v;
     lastSessionId := lastSessionId s; oplog := oplog s |}.

(** [localStorage.setItem('lastSessionId', v)] and [removeItem]. *)
Definition storage_write (o : option string) (s : State) : State :=
  {| messages := messages s; input := input s; loading := loading s;
     sessionId := sessionId s; loadingHistory := loadingHistory s;
     selectedDb := selectedDb s; editingIndex := editingIndex s;
     editingText := editingText s; isRegenerating := isRegenerating s;
     previousSessionRef := previousSessionRef s;
     lastSessionId := o; oplog := oplog s |}.

(** ** The network *)

(** Body of [POST /api/chat/query]. *)
Record QueryBody := {
  query : string;
  session_id : jsval;
  use_rag : bool;
  db_scope : jsval
}.

(** The fields the handlers read from the parsed answer; a field the body
    lacks reads [undefined]. *)
Record QueryData := {
  d_session_id : jsval;
  d_answer : jsval;
  d_sources : Sources;
  d_response_time_ms : jsval
}.

(** One record of [GET /api/chat/sessions/:id/messages]. *)
Record HistoryRecord := {
  h_role : jsval;
  h_content : jsval;
  h_sources : Sources;
  h_response_time_ms : jsval;
  h_db_scope : jsval
}.

(** What [await fetch(...)] gives: the promise rejects (the server is
    unreachable), or it resolves with a response whatever its HTTP status.
    [ok] is [response.ok]; [json] is what [await response.json()] yields,
    [None] when that raises (the body is not JSON, or is JSON the handler
    cannot read a field from, such as [null]). *)
Inductive FetchResult (A : Type) :=
| Rejected
| Resolved (ok : bool) (json : option A).
Arguments Rejected {A}.
Arguments Resolved {A} ok json.

(** A suspended handler: the request it sent and the closure variables its
    resumption reads. *)
Inductive Cont :=
| SendK (body : QueryBody) (k_sessionId : jsval) (k_selectedDb : DbScope)
| EditK (body : QueryBody) (k_dbScopeForEdit : jsval)
| HistoryK (k_sessionId : jsval).

(** How a call of an [async] handler ends its synchronous prefix. *)
Inductive Outcome :=
| Returned (s : State)           (* plain [return] before any [await] *)
| Threw                          (* TypeError before any state update *)
| Awaiting (s : State) (k : Cont).

(** ** Handlers *)

(** [checkSessionChange], ChatPage.jsx 108-117. *)
Definition checkSessionChange (s : State) : State :=
  let savedSessionId := of_storage (lastSessionId s) in
  if decide (savedSessionId = previousSessionRef s) then s
  else
    setEditingText ""
      (setEditingIndex None
         (reset_messages
            (setSessionId savedSessionId
               (set_previousSessionRef savedSessionId s)))).

(** One history record as [loadChatHistory] installs it, 142-148. *)
Definition loaded_message (r : HistoryRecord) : Message :=
  {| role := h_role r;
     content := h_content r;
     sources := Some (default [] (h_sources r));
     responseTime := h_response_time_ms r;
     dbScope := js_or (h_db_scope r) (JStr "local") |}.

(** [loadChatHistory], 125-130. *)
Definition loadChatHistory (s : State) : Outcome :=
  if negb (truthy (sessionId s)) then Returned (reset_messages s)
  else Awaiting (setLoadingHistory true s) (HistoryK (sessionId s)).

(** [loadChatHistory] after the fetch, 140-155. *)
Definition loadChatHistory_resume
    (r : FetchResult (list HistoryRecord)) (s : State) : State :=
  let s1 :=
    match r with
    | Resolved true (Some data) =>
        let loadedMessages := map loaded_message data in
        setMessages (OpReplaceAll loadedMessages) loadedMessages s
    | _ => s
    end in
  setLoadingHistory false s1.

(** [sendMessage], 161-186.  Stopping a running voice capture (164-166)
    touches none of the state kept here. *)
Definition sendMessage (s : State) : Outcome :=
  if blank (input s) then Returned s
  else
    let userMessage :=
      {| role := JStr "user"; content := JStr (input s); sources := None;
         responseTime := JUndefined; dbScope := scope_js (selectedDb s) |} in
    Awaiting
      (setLoading true (setInput "" (append_message userMessage s)))
      (SendK {| query := input s; session_id := sessionId s;
                use_rag := true; db_scope := scope_js (selectedDb s) |}
             (sessionId s) (selectedDb s)).

(** The fixed texts of the two [catch] blocks, 210 and 276. *)
Definition send_apology : string :=
  "Sorry, there was an error. Please try again.".
Definition edit_apology : string :=
  "Sorry, there was an error regenerating the response. Please try again.".

(** [sendMessage] after the fetch, 188-215. *)
Definition sendMessage_resume (k_sessionId : jsval) (k_selectedDb : DbScope)
    (r : FetchResult QueryData) (s : State) : State :=
  match r with
  | Resolved _ (Some data) =>
      let s1 :=
        if negb (truthy k_sessionId) then
          set_previousSessionRef (d_session_id data)
            (storage_write (Some (to_string (d_session_id data)))
               (setSessionId (d_session_id data) s))
        else s in
      let assistantMessage :=
        {| role := JStr "assistant"; content := d_answer data;
           sources := d_sources data;
           responseTime := d_response_time_ms data;
           dbScope := scope_js k_selectedDb |} in
      setLoading false (append_message assistantMessage s1)
  | _ =>
      setLoading false
        (append_message
           {| role := JStr "assistant";
              content := JStr send_apology;
              sources := None; responseTime := JUndefined;
              dbScope := scope_js k_selectedDb |} s)
  end.

(** The array surgery of [saveEditedMessage], 235-240, on a copy of
    [messages]: [None] when [updated[editIdx]] is undefined, so that the
    assignment to its [content] raises. *)
Definition editAndTruncate (messages : list Message) (editIdx : nat)
    (newQuery : string) : option (list Message) :=
  match messages !! editIdx with
  | None => None
  | Some m =>
      let updated := <[editIdx := set_content (JStr newQuery) m]> messages in
      match updated !! (editIdx + 1) with
      | Some next =>
          if decide (role next = JStr "assistant")
          then Some (delete (editIdx + 1) updated)
          else Some updated
      | None => Some updated
      end
  end.

(** [saveEditedMessage], 226-259.  [messages[editIdx]] is undefined when
    [editingIndex] is [null] or past the end, and reading [dbScope] from it
    raises before any state is set. *)
Definition saveEditedMessage (s : State) : Outcome :=
  if blank (editingText s) then Returned s
  else
    let newQuery := editingText s in
    match editingIndex s with
    | None => Threw
    | Some editIdx =>
        match messages s !! editIdx with
        | None => Threw
        | Some m =>
            let dbScopeForEdit :=
              js_or (dbScope m) (scope_js (selectedDb s)) in
            match editAndTruncate (messages s) editIdx newQuery with
            | None => Threw
            | Some updated =>
                Awaiting
                  (setEditingText ""
                     (setEditingIndex None
                        (setMessages (OpEditTruncate updated) updated
                           (setIsRegenerating true s))))
                  (EditK {| query := newQuery; session_id := sessionId s;
                            use_rag := true; db_scope := dbScopeForEdit |}
                         dbScopeForEdit)
            end
        end
    end.

(** [saveEditedMessage] after the fetch, 261-281. *)
Definition saveEditedMessage_resume (k_dbScopeForEdit : jsval)
    (r : FetchResult QueryData) (s : State) : State :=
  match r with
  | Resolved _ (Some data) =>
      let newAssistantMessage :=
        {| role := JStr "assistant"; content := d_answer data;
           sources := d_sources data;
           responseTime := d_response_time_ms data;
           dbScope := k_dbScopeForEdit |} in
      setIsRegenerating false (append_message newAssistantMessage s)
  | _ =>
      setIsRegenerating false
        (append_message
           {| role := JStr "assistant";
              content := JStr edit_apology;
              sources := None; responseTime := JUndefined;
              dbScope := k_dbScopeForEdit |} s)
  end.

(** [startNewChat], 284-290. *)
Definition startNewChat (s : State) : State :=
  set_previousSessionRef JNull
    (storage_write None (setSessionId JNull (reset_messages s))).

(** ** The running component *)

(** The component state together with the requests in flight. *)
Record World := {
  st : State;
  inflight : list Cont
}.

Definition with_state (w : World) (s : State) : World :=
  {| st := s; inflight := inflight w |}.

(** The world after the synchronous prefix of a handler. *)
Definition settle (w : World) (o : Outcome) : World :=
  match o with
  | Returned s => with_state w s
  | Threw => w
  | Awaiting s k => {| st := s; inflight := inflight w ++ [k] |}
  end.

(** [useEffect(..., [sessionId])], 124-158: after a render whose
    [sessionId] differs from the one before, [loadChatHistory] runs. *)
Definition after_render (before : jsval) (w : World) : World :=
  if decide (sessionId (st w) = before) then w
  else settle w (loadChatHistory (st w)).

(** The first render and its effects, in order: the first
    [checkSessionChange] (118), then [loadChatHistory] closed over the
    [sessionId] of the first render, which is [null] (126-128), then the
    render that follows. *)
Definition mount (stored : option string) : World :=
  let s1 := checkSessionChange (initial stored) in
  let s2 := reset_messages s1 in
  after_render JNull {| st := s2; inflight := [] |}.

(** *** Controls of the render *)

(** The query is in flight on one of the two paths. *)
Definition dispatching (s : State) : bool := loading s || isRegenerating s.

(** Send button, 556-558. *)
Definition send_disabled (s : State) : bool := loading s || blank (input s).

(** The edit box replaces the message at [editingIndex] when that message
    is a user message, 392. *)
Definition edit_box (s : State) : bool :=
  match editingIndex s with
  | None => false
  | Some idx =>
      match messages s !! idx with
      | None => false
      | Some msg => bool_decide (role msg = JStr "user")
      end
  end.

(** Save button, 401-404. *)
Definition save_disabled (s : State) : bool :=
  isRegenerating s || blank (editingText s).

Inductive Event :=
| Tick                              (* setInterval(checkSessionChange, 500) *)
| StorageWrite (v : option string)  (* a sibling sets or removes lastSessionId *)
| TypeInput (t : string)            (* textarea onChange, 535-543 *)
| VoiceFinal (t : string)           (* recognition.onresult, 55-65 *)
| SelectDb (d : DbScope)            (* 517-532 *)
| ClickSend                         (* 556-562 *)
| KeyEnter                          (* handleKeyPress, 218-223 *)
| ClickEdit (idx : nat)             (* 454-464 *)
| TypeEdit (t : string)             (* 394-399 *)
| ClickSave                         (* 401-417 *)
| ClickCancel                       (* 418-425 *)
| ClickNewChat                      (* 353 *)
| QueryDone (n : nat) (r : FetchResult QueryData)
| HistoryDone (n : nat) (r : FetchResult (list HistoryRecord)).

(** What one event does before the next render.  A control that is
    disabled or not rendered delivers no event. *)
Definition handle (w : World) (e : Event) : World :=
  let s := st w in
  match e with
  | Tick => with_state w (checkSessionChange s)
  | StorageWrite v => with_state w (storage_write v s)
  | TypeInput t => if loading s then w else with_state w (setInput t s)
  | VoiceFinal t =>
      if blank t then w else with_state w (setInput (String.append (input s) t) s)
  | SelectDb d => with_state w (setSelectedDb d s)
  | ClickSend => if send_disabled s then w else settle w (sendMessage s)
  | KeyEnter => if loading s then w else settle w (sendMessage s)
  | ClickEdit idx =>
      match messages s !! idx with
      | Some msg =>
          if bool_decide (role msg = JStr "user")
             && negb (bool_decide (editingIndex s = Some idx))
          then
            match content msg with
            | JStr c =>
                with_state w (setEditingText c (setEditingIndex (Some idx) s))
            | _ => w
            end
          else w
      | None => w
      end
  | TypeEdit t => if edit_box s then with_state w (setEditingText t s) else w
  | ClickSave =>
      if edit_box s && negb (save_disabled s)
      then settle w (saveEditedMessage s) else w
  | ClickCancel =>
      if edit_box s && negb (isRegenerating s)
      then with_state w (setEditingText "" (setEditingIndex None s)) else w
  | ClickNewChat => with_state w (startNewChat s)
  | QueryDone n r =>
      match inflight w !! n with
      | Some (SendK _ k_sessionId k_selectedDb) =>
          {| st := sendMessage_resume k_sessionId k_selectedDb r s;
             inflight := delete n (inflight w) |}
      | Some (EditK _ k_dbScopeForEdit) =>
          {| st := saveEditedMessage_resume k_dbScopeForEdit r s;
             inflight := delete n (inflight w) |}
      | _ => w
      end
  | HistoryDone n r =>
      match inflight w !! n with
      | Some (HistoryK _) =>
          {| st := loadChatHistory_resume r s;
             inflight := delete n (inflight w) |}
      | _ => w
      end
  end.

(** One turn of the event loop: the handler, then the render and its
    effects. *)
Definition step (w : World) (e : Event) : World :=
  after_render (sessionId (st w)) (handle w e).

Definition run (w : World) (es : list Event) : World := foldl step w es.

(** The worlds the component can be in. *)
Inductive reachable : World -> Prop :=
| reach_mount stored : reachable (mount stored)
| reach_step w e : reachable w -> reachable (step w e).

(** The request a continuation is waiting on, when it is a query. *)
Definition request_of (k : Cont) : option QueryBody :=
  match k with
  | SendK body _ _ | EditK body _ => Some body
  | HistoryK _ => None
  end.

(** The resumption of a query continuation. *)
Definition resume_query (k : Cont) (r : FetchResult QueryData) (s : State)
    : State :=
  match k with
  | SendK _ k_sessionId k_selectedDb =>
      sendMessage_resume k_sessionId k_selectedDb r s
  | EditK _ k_dbScopeForEdit => saveEditedMessage_resume k_dbScopeForEdit r s
  | HistoryK _ => s
  end.

(** A query fails when the server cannot be reached ([fetch] rejects) or
    answers with an error status. *)
Definition failed {A} (r : FetchResult A) : bool :=
  match r with
  | Rejected => true
  | Resolved ok _ => negb ok
  end.

(** The answer arrived with a success status and a readable body. *)
Definition succeeded {A} (r : FetchResult A) : option A :=
  match r with
  | Resolved true (Some data) => Some data
  | _ => None
  end.

(** The [catch] block ran: the fetch rejected or the body was unreadable. *)
Definition caught {A} (r : FetchResult A) : bool :=
  match r with
  | Rejected | Resolved _ None => true
  | Resolved _ (Some _) => false
  end.

(** ** Invariants and bookkeeping, as predicates *)

(** The message carries a scope that is neither [null] nor [undefined]
    (indeed a truthy one). *)
Definition scoped (m : Message) : Prop := truthy (dbScope m) = true.

(** An edit in flight will stamp its answer with a truthy scope. *)
Definition cont_scoped (k : Cont) : Prop :=
  match k with
  | EditK _ k_dbScopeForEdit => truthy k_dbScopeForEdit = true
  | _ => True
  end.

Record invariant (w : World) : Prop := {
  inv_scoped : Forall scoped (messages (st w));
  inv_inflight : Forall cont_scoped (inflight w);
  inv_synced : sessionId (st w) = previousSessionRef (st w)
}.

(** The continuation [k] is the one a dispatch of [body] leaves behind:
    the scope in its closure is the scope written into the request. *)
Definition issued (k : Cont) (body : QueryBody) : Prop :=
  match k with
  | SendK b _ k_selectedDb => b = body /\ db_scope b = scope_js k_selectedDb
  | EditK b k_dbScopeForEdit => b = body /\ db_scope b = k_dbScopeForEdit
  | HistoryK _ => False
  end.

(** The session id the handler saw when it was called, as the resumption
    tests it (190); the edit path never tests it. *)
Definition binds_session (k : Cont) : bool :=
  match k with
  | SendK _ k_sessionId _ => negb (truthy k_sessionId)
  | _ => false
  end.

(** The text of the [catch] block of the path [k] is on. *)
Definition apology_of (k : Cont) : string :=
  match k with
  | SendK _ _ _ => send_apology
  | _ => edit_apology
  end.

(** The flag that marks the path of [k] as busy. *)
Definition busy_flag (k : Cont) (s : State) : bool :=
  match k with
  | SendK _ _ _ => loading s
  | _ => isRegenerating s
  end.

(** Either dispatch path suspended in [s] with continuation [k]. *)
Definition query_started (s s1 : State) (k : Cont) : Prop :=
  sendMessage s = Awaiting s1 k \/ saveEditedMessage s = Awaiting s1 k.

(** ** Sample data *)

Definition user_message (text : string) (d : DbScope) : Message :=
  {| role := JStr "user"; content := JStr text; sources := None;
     responseTime := JUndefined; dbScope := scope_js d |}.

Definition assistant_message (text : string) (d : DbScope) : Message :=
  {| role := JStr "assistant"; content := JStr text; sources := Some [];
     responseTime := JNum 42; dbScope := scope_js d |}.

(** A well-formed answer of the query endpoint. *)
Definition answer_s1 : QueryData :=
  {| d_session_id := JStr "s1"; d_answer := JStr "A2";
     d_sources := Some []; d_response_time_ms := JNum 42 |}.

(** An error body such as [{"detail": "..."}]: none of the fields the
    handlers read is present. *)
Definition error_body : QueryData :=
  {| d_session_id := JUndefined; d_answer := JUndefined;
     d_sources := None; d_response_time_ms := JUndefined |}.

(** A first question is in flight. *)
Definition asked : World :=
  run (mount None) [TypeInput "What is X?"; ClickSend].

(** A regeneration is in flight and a new question has been typed. *)
Definition regenerating : World :=
  run (mount None)
    [TypeInput "Q1"; ClickSend; QueryDone 0 Rejected; ClickEdit 0;
     TypeEdit "Q1-revised"; ClickSave; TypeInput "Q2"].

(** A question is in flight and an earlier one is open in the edit box. *)
Definition sending : World :=
  run (mount None)
    [TypeInput "Q1"; ClickSend; QueryDone 0 Rejected; TypeInput "Q2";
     ClickSend; ClickEdit 0; TypeEdit "Q1-revised"].

(** The first question was answered against the local scope; it is open in
    the edit box while the shared scope is selected. *)
Definition editing_local : World :=
  run (mount None)
    [TypeInput "Q1"; ClickSend;
     QueryDone 0 (Resolved true (Some answer_s1)); SelectDb Shared;
     ClickEdit 0; TypeEdit "Q1-revised"].

Definition editing_local_request : Cont :=
  EditK {| query := "Q1-revised"; session_id := JStr "s1"; use_rag := true;
           db_scope := JStr "local" |} (JStr "local").

Definition editing_local_saved : State :=
  Eval vm_compute in
    match saveEditedMessage (st editing_local) with
    | Awaiting s _ => s
    | _ => st editing_local
    end.

(** The message [editingIndex] points at, if any. *)
Definition edit_target (s : State) : option Message :=
  match editingIndex s with
  | Some idx => messages s !! idx
  | None => None
  end.

(** A history that opens with an assistant message. *)
Definition greeting_history : list HistoryRecord :=
  [{| h_role := JStr "assistant"; h_content := JStr "Hello";
      h_sources := None; h_response_time_ms := JNull;
      h_db_scope := JNull |}].

(** The first question was opened in the edit box while its answer was in
    flight; the answer bound a session, and the history then loaded for it
    replaced the transcript under the open edit. *)
Definition stale_edit : World :=
  run (mount None)
    [TypeInput "Q1"; ClickSend; ClickEdit 0;
     QueryDone 0 (Resolved true (Some answer_s1));
     HistoryDone 0 (Resolved true (Some greeting_history))].

(** As [stale_edit], but the open edit was on the third message and the
    loaded history is shorter: [editingIndex] points past the end. *)
Definition dangling_edit : World :=
  run (mount None)
    [TypeInput "Q1"; ClickSend; QueryDone 0 Rejected; TypeInput "Q2";
     ClickSend; ClickEdit 2;
     QueryDone 0 (Resolved true (Some answer_s1));
     HistoryDone 0 (Resolved true (Some greeting_history))].

(** Two completed turns. *)
Definition two_turns : list Message :=
  [user_message "Q1" Local; assistant_message "A1" Local;
   user_message "Q2" Shared; assistant_message "A2" Shared].

(** ** Requests in flight, by kind *)

Definition is_send (k : Cont) : bool :=
  match k with SendK _ _ _ => true | _ => false end.

Definition is_edit (k : Cont) : bool :=
  match k with EditK _ _ => true | _ => false end.

Definition is_history (k : Cont) : bool :=
  match k with HistoryK _ => true | _ => false end.

(** How many of the requests in flight satisfy [p]. *)
Definition in_flight (p : Cont -> bool) (w : World) : nat :=
  length (List.filter p (inflight w)).

Definition flag_count (b : bool) : nat := if b then 1 else 0.

(** The busy flags count the queries in flight; the history spinner is
    shown only while a history request is in flight. *)
Record flags_exact (w : World) : Prop := {
  fl_send : in_flight is_send w = flag_count (loading (st w));
  fl_edit : in_flight is_edit w = flag_count (isRegenerating (st w));
  fl_history : loadingHistory (st w) = true -> 0 < in_flight is_history w
}.

(** The events whose handler only ever appends to the transcript. *)
Definition appends_only (e : Event) : bool :=
  match e with
  | Tick | ClickSave | ClickNewChat | HistoryDone _ _ => false
  | _ => true
  end.

(** ** Voice results *)

(** The loop of [recognition.onresult], 56-61, over the results of one
    event: for each result its [isFinal] flag and the transcript of its
    first alternative. *)
Definition finalTranscript (results : list (bool * string)) : string :=
  fold_left
    (fun (acc : string) (r : bool * string) =>
       if fst r then String.append acc (String.append (snd r) " ") else acc)
    results "".

(** [recognition.onresult], 55-65. *)
Definition onresult (results : list (bool * string)) (s : State) : State :=
  if blank (finalTranscript results) then s
  else setInput (String.append (input s) (finalTranscript results)) s.

(** ** Export *)

Definition nl : string := String (Ascii.ascii_of_nat 10) EmptyString.

(** The lines written before the messages, 298-301; [now] is
    [new Date().toLocaleString()]. *)
Definition export_header (now : string) (total : nat) : string :=
  String.concat ""
    ["# Chat Export"; nl; nl;
     "**Exported on:** "; now; nl; nl;
     "**Total Messages:** "; pretty total; nl; nl;
     "---"; nl; nl].

(** The lines of one message, the body of the [forEach] at 303-322.  The
    sources are listed by their [source] field. *)
Definition export_block (msg : Message) : string :=
  let role_label :=
    if decide (role msg = JStr "user") then "👤 User" else "🤖 Assistant" in
  let dbLabel :=
    if decide (dbScope msg = JStr "shared")
    then " (Shared DB)" else " (Local DB)" in
  String.concat ""
    ["## "; role_label;
     (if decide (role msg = JStr "user") then dbLabel else ""); nl; nl;
     to_string (content msg); nl; nl;
     match sources msg with
     | Some (src :: more) =>
         String.concat ""
           ["**Sources:**"; nl;
            String.concat ""
              (map (fun source =>
                      String.concat "" ["- "; source; nl]) (src :: more));
            nl]
     | _ => ""
     end;
     (if truthy (responseTime msg)
      then String.concat ""
             ["*Response time: "; to_string (responseTime msg); "ms*"; nl; nl]
      else "");
     "---"; nl; nl].

(** The text after the header: the blocks in the order of [forEach]. *)
Definition export_body (msgs : list Message) : string :=
  fold_left
    (fun (markdown : string) (msg : Message) =>
       String.append markdown (export_block msg))
    msgs "".

(** [exportChatAsMarkdown], 292-335: the text handed to the download, or
    [None] when only the alert is shown. *)
Definition exportChatAsMarkdown (now : string) (msgs : list Message)
    : option string :=
  match msgs with
  | [] => None
  | _ =>
      Some (fold_left
              (fun (markdown : string) (msg : Message) =>
                 String.append markdown (export_block msg))
              msgs (export_header now (length msgs)))
  end.

(** ** The application shell and the session list *)

(** [currentSessionId] of [App] beside the mounted chat page, whose state
    holds the shared [lastSessionId] entry. *)
Record Shell := {
  currentSessionId : jsval;
  page : World
}.

(** [handleSessionSelect], App.jsx 57-64. *)
Definition handleSessionSelect (sessionId : jsval) (a : Shell) : Shell :=
  {| currentSessionId := sessionId;
     page :=
       with_state (page a)
         (storage_write
            (if truthy sessionId then Some (to_string sessionId) else None)
            (st (page a))) |}.

(** [handleDelete], Sidebar.jsx 64-67: [None] when the confirm dialog is
    dismissed, otherwise the closure of the DELETE request: the id and the
    [currentSessionId] the sidebar was rendered with. *)
Definition handleDelete (confirmed : bool) (sessionId : jsval) (a : Shell)
    : option (jsval * jsval) :=
  if confirmed then Some (sessionId, currentSessionId a) else None.

(** [handleDelete] after the fetch, 79-87 (the reload of the session list
    is not part of this state). *)
Definition handleDelete_resume (k : jsval * jsval) (r : FetchResult unit)
    (a : Shell) : Shell :=
  match r with
  | Resolved true _ =>
      if decide (fst k = snd k) then handleSessionSelect JNull a else a
  | _ => a
  end.

(** A regeneration and a new question are both in flight. *)
Definition both_paths_busy : World := step regenerating ClickSend.

(** The sidebar has selected session s2 under the mounted chat page. *)
Definition switched : World := step (mount None) (StorageWrite (Some "s2")).

(** An answer whose session id is a number. *)
Definition answer_numeric : QueryData :=
  {| d_session_id := JNum 5; d_answer := JStr "A"; d_sources := Some [];
     d_response_time_ms := JNum 42 |}.

(** The scope in the closure of a query in flight is the scope written
    into its request. *)
Definition well_issued (k : Cont) : Prop :=
  match k with
  | SendK b _ k_selectedDb => db_scope b = scope_js k_selectedDb
  | EditK b k_dbScopeForEdit => db_scope b = k_dbScopeForEdit
  | HistoryK _ => True
  end.

(** [response.ok] of a request whose body is not read. *)
Definition acknowledged (r : FetchResult unit) : bool :=
  match r with
  | Resolved true _ => true
  | _ => false
  end.

(** A whole deletion from the session list: the click in the shell [a],
    the reply arriving in the shell [a2]. *)
Definition delete_session (confirmed : bool) (sessionId : jsval)
    (r : FetchResult unit) (a a2 : Shell) : Shell :=
  match handleDelete confirmed sessionId a with
  | Some k => handleDelete_resume k r a2
  | None => a2
  end.

(** The shell after the first answer bound session s1 from the chat page,
    with session s1 then selected in the sidebar. *)
Definition shell_on_s1 : Shell :=
  handleSessionSelect (JStr "s1")
    {| currentSessionId := JNull;
       page := run (mount None)
                 [TypeInput "Q1"; ClickSend;
                  QueryDone 0 (Resolved true (Some answer_s1))] |}.

(** The stored session s1 was resumed on mount; the pointer has since been
    removed by a sibling (the session was deleted, or the user logged out). *)
Definition unselected : World :=
  run (mount (Some "s1")) [StorageWrite None].

(** * Properties *)

(** ** The array surgery of an edit *)

Section EditAndTruncate.
Variables (msgs : list Message) (i : nat) (m : Message) (text : string).
Hypothesis Hi : msgs !! i = Some m.

Let edited := <[i := set_content (JStr text) m]> msgs.




Lemma edited_at : edited !! i = Some (set_content (JStr text) m).
Proof. apply list_lookup_insert_eq. eapply lookup_lt_Some, Hi. Qed.


End EditAndTruncate.

(** An edit at an existing index always yields an array. *)
Lemma editAndTruncate_total (msgs : list Message) (i : nat) (m : Message)
    (text : string) :
  msgs !! i = Some m -> is_Some (editAndTruncate msgs i text).
Proof.
  intros Hi. unfold editAndTruncate. rewrite Hi. cbv zeta.
  destruct (_ !! (i + 1)) as [next|]; [|eauto].
  destruct (decide (role next = JStr "assistant")); eauto.
Qed.

(** [saveEditedMessage] installs the edited array before it suspends. *)
Lemma saveEditedMessage_installs (s : State) (i : nat) (m : Message) :
  blank (editingText s) = false ->
  editingIndex s = Some i ->
  messages s !! i = Some m ->
  exists updated,
    editAndTruncate (messages s) i (editingText s) = Some updated /\
    saveEditedMessage s =
      Awaiting
        (setEditingText ""
           (setEditingIndex None
              (setMessages (OpEditTruncate updated) updated
                 (setIsRegenerating true s))))
        (EditK {| query := editingText s; session_id := sessionId s;
                  use_rag := true;
                  db_scope := js_or (dbScope m) (scope_js (selectedDb s)) |}
               (js_or (dbScope m) (scope_js (selectedDb s)))).
Proof.
  intros Hb He Hm.
  destruct (editAndTruncate_total (messages s) i m (editingText s) Hm)
    as [updated Hu].
  exists updated. split; [exact Hu|].
  unfold saveEditedMessage. rewrite Hb, He, Hm, Hu. reflexivity.
Qed.

(** A suspended [saveEditedMessage] had passed its guards. *)
Lemma saveEditedMessage_awaiting (s s1 : State) (k : Cont) :
  saveEditedMessage s = Awaiting s1 k ->
  blank (editingText s) = false /\
  exists i m, editingIndex s = Some i /\ messages s !! i = Some m.
Proof.
  unfold saveEditedMessage.
  destruct (blank (editingText s)); [discriminate|].
  destruct (editingIndex s) as [i|]; [|discriminate].
  destruct (messages s !! i) as [m|] eqn:E; [|discriminate].
  intros _. eauto 6.
Qed.

(** A suspended [sendMessage] had a non-blank input, and its request and
    closure are those of the state it was called in. *)
Lemma sendMessage_awaiting (s s1 : State) (k : Cont) :
  sendMessage s = Awaiting s1 k ->
  blank (input s) = false /\
  k = SendK {| query := input s; session_id := sessionId s;
               use_rag := true; db_scope := scope_js (selectedDb s) |}
            (sessionId s) (selectedDb s) /\
  messages s1 =
    messages s ++
      [{| role := JStr "user"; content := JStr (input s); sources := None;
          responseTime := JUndefined; dbScope := scope_js (selectedDb s) |}].
Proof.
  unfold sendMessage. destruct (blank (input s)); [discriminate|].
  intros H. inversion H; subst. auto.
Qed.



(** ** Invariants of the running component *)

Lemma truthy_scope_js (d : DbScope) : truthy (scope_js d) = true.
Proof. destruct d; reflexivity. Qed.

Lemma truthy_js_or (x y : jsval) : truthy y = true -> truthy (js_or x y) = true.
Proof. unfold js_or. destruct (truthy x) eqn:E; auto. Qed.

Lemma js_or_truthy (x y : jsval) : truthy x = true -> js_or x y = x.
Proof. unfold js_or. intros ->. reflexivity. Qed.

Lemma truthy_not_null (v : jsval) :
  truthy v = true -> v <> JNull /\ v <> JUndefined.
Proof. destruct v; simpl; intros; split; congruence. Qed.

Lemma loaded_message_scoped (r : HistoryRecord) : scoped (loaded_message r).
Proof. apply truthy_js_or. reflexivity. Qed.

Lemma loaded_messages_scoped (data : list HistoryRecord) :
  Forall scoped (map loaded_message data).
Proof.
  induction data as [|r data IH]; constructor; auto using loaded_message_scoped.
Qed.

Lemma editAndTruncate_scoped (msgs updated : list Message) (i : nat)
    (text : string) :
  Forall scoped msgs ->
  editAndTruncate msgs i text = Some updated ->
  Forall scoped updated.
Proof.
  intros Hs. unfold editAndTruncate.
  destruct (msgs !! i) as [m|] eqn:Hi; [|discriminate]. cbv zeta.
  assert (He : Forall scoped (<[i := set_content (JStr text) m]> msgs)).
  { apply Forall_insert; [assumption|].
    eapply (proj1 (Forall_lookup _ _)) in Hs; [|exact Hi]. exact Hs. }
  destruct (_ !! (i + 1)) as [next|].
  - destruct (decide _); intros [= <-]; auto using Forall_delete.
  - intros [= <-]. assumption.
Qed.

Lemma snoc_scoped (l : list Message) (m : Message) :
  Forall scoped l -> scoped m -> Forall scoped (l ++ [m]).
Proof. intros. apply Forall_app. split; [assumption|]. constructor; auto. Qed.

Create HintDb chat.
#[local] Hint Resolve truthy_scope_js truthy_js_or loaded_messages_scoped
  snoc_scoped Forall_nil_2 Forall_delete : chat.
#[local] Hint Extern 1 (scoped _) => unfold scoped; simpl : chat.

(** The transcript of each handler stays scoped. *)

Lemma checkSessionChange_scoped (s : State) :
  Forall scoped (messages s) -> Forall scoped (messages (checkSessionChange s)).
Proof. unfold checkSessionChange. case_decide; simpl; auto with chat. Qed.

Lemma checkSessionChange_synced (s : State) :
  sessionId s = previousSessionRef s ->
  sessionId (checkSessionChange s) = previousSessionRef (checkSessionChange s).
Proof. unfold checkSessionChange. case_decide; simpl; auto. Qed.

Lemma sendMessage_resume_scoped k_sid k_db r (s : State) :
  Forall scoped (messages s) ->
  Forall scoped (messages (sendMessage_resume k_sid k_db r s)).
Proof.
  intros Hs. unfold sendMessage_resume.
  destruct r as [|ok [data|]]; [| destruct (truthy k_sid) |]; simpl;
    apply snoc_scoped; auto with chat.
Qed.

Lemma sendMessage_resume_synced k_sid k_db r (s : State) :
  sessionId s = previousSessionRef s ->
  sessionId (sendMessage_resume k_sid k_db r s) =
  previousSessionRef (sendMessage_resume k_sid k_db r s).
Proof.
  intros Hs. unfold sendMessage_resume.
  destruct r as [|ok [data|]]; simpl; auto.
  destruct (truthy k_sid); simpl; auto.
Qed.

Lemma saveEditedMessage_resume_scoped k_scope r (s : State) :
  truthy k_scope = true ->
  Forall scoped (messages s) ->
  Forall scoped (messages (saveEditedMessage_resume k_scope r s)).
Proof.
  intros Hk Hs. unfold saveEditedMessage_resume.
  destruct r as [|ok [data|]]; simpl; apply snoc_scoped; auto with chat.
Qed.

Lemma saveEditedMessage_resume_synced k_scope r (s : State) :
  sessionId s = previousSessionRef s ->
  sessionId (saveEditedMessage_resume k_scope r s) =
  previousSessionRef (saveEditedMessage_resume k_scope r s).
Proof.
  unfold saveEditedMessage_resume. destruct r as [|ok [data|]]; simpl; auto.
Qed.

Lemma loadChatHistory_resume_synced r (s : State) :
  sessionId s = previousSessionRef s ->
  sessionId (loadChatHistory_resume r s) =
  previousSessionRef (loadChatHistory_resume r s).
Proof.
  unfold loadChatHistory_resume. destruct r as [|[] [data|]]; simpl; auto.
Qed.

Lemma loadChatHistory_resume_scoped r (s : State) :
  Forall scoped (messages s) ->
  Forall scoped (messages (loadChatHistory_resume r s)).
Proof.
  intros Hs. unfold loadChatHistory_resume.
  destruct r as [|[] [data|]]; simpl; auto with chat.
Qed.

Lemma settle_invariant (w : World) (o : Outcome) :
  invariant w ->
  match o with
  | Returned s | Awaiting s _ =>
      Forall scoped (messages s) /\ sessionId s = previousSessionRef s
  | Threw => True
  end ->
  match o with Awaiting _ k => cont_scoped k | _ => True end ->
  invariant (settle w o).
Proof.
  intros [H1 H2 H3]. destruct o as [s| |s k]; simpl.
  - intros [? ?] _. constructor; simpl; auto.
  - intros _ _. constructor; auto.
  - intros [? ?] Hk. constructor; simpl; auto.
    apply Forall_app. split; [assumption|]. constructor; auto.
Qed.

Lemma sendMessage_invariant (w : World) :
  invariant w -> invariant (settle w (sendMessage (st w))).
Proof.
  intros Hw. pose proof Hw as [H1 H2 H3].
  apply settle_invariant; [assumption| |];
    unfold sendMessage; destruct (blank (input (st w))); simpl; auto with chat.
Qed.

Lemma saveEditedMessage_invariant (w : World) :
  invariant w -> invariant (settle w (saveEditedMessage (st w))).
Proof.
  intros Hw. pose proof Hw as [H1 H2 H3].
  apply settle_invariant; [assumption| |]; unfold saveEditedMessage;
    destruct (blank (editingText (st w))); simpl; auto;
    destruct (editingIndex (st w)) as [i|]; auto;
    destruct (messages (st w) !! i) as [m|]; auto;
    destruct (editAndTruncate _ _ _) as [updated|] eqn:E; simpl;
    eauto using editAndTruncate_scoped with chat.
Qed.

Lemma loadChatHistory_invariant (w : World) :
  invariant w -> invariant (settle w (loadChatHistory (st w))).
Proof.
  intros Hw. pose proof Hw as [H1 H2 H3].
  apply settle_invariant; [assumption| |];
    unfold loadChatHistory; destruct (truthy _); simpl; auto with chat.
Qed.

Lemma after_render_invariant (before : jsval) (w : World) :
  invariant w -> invariant (after_render before w).
Proof.
  intros Hw. unfold after_render. case_decide; [assumption|].
  apply loadChatHistory_invariant, Hw.
Qed.

Lemma inflight_delete_scoped (ks : list Cont) (n : nat) :
  Forall cont_scoped ks -> Forall cont_scoped (delete n ks).
Proof. apply Forall_delete. Qed.

Lemma handle_invariant (w : World) (e : Event) :
  invariant w -> invariant (handle w e).
Proof.
  intros Hw. pose proof Hw as [H1 H2 H3].
  destruct e; simpl;
    try (constructor; simpl; solve [auto with chat]).
  - constructor; simpl;
      auto using checkSessionChange_scoped, checkSessionChange_synced.
  - destruct (loading (st w)); [assumption|]. constructor; auto.
  - destruct (blank t); [assumption|]. constructor; auto.
  - destruct (send_disabled (st w)); auto using sendMessage_invariant.
  - destruct (loading (st w)); auto using sendMessage_invariant.
  - destruct (messages (st w) !! idx) as [msg|]; [|assumption].
    destruct (_ && _); [|assumption].
    destruct (content msg); try assumption. constructor; auto.
  - destruct (edit_box (st w)); [|assumption]. constructor; auto.
  - destruct (_ && _); auto using saveEditedMessage_invariant.
  - destruct (_ && _); [|assumption]. constructor; auto.
  - destruct (inflight w !! n) as [[body ks kd|body ksc|ksid]|] eqn:E;
      try assumption.
    + constructor; cbn [st inflight];
        auto using sendMessage_resume_scoped, sendMessage_resume_synced,
          inflight_delete_scoped.
    + assert (Hk : truthy ksc = true).
      { eapply (proj1 (Forall_lookup _ _)) in H2; [|exact E]. exact H2. }
      constructor; cbn [st inflight];
        auto using saveEditedMessage_resume_scoped,
          saveEditedMessage_resume_synced, inflight_delete_scoped.
  - destruct (inflight w !! n) as [[body ks kd|body ksc|ksid]|] eqn:E;
      try assumption.
    constructor; cbn [st inflight];
      auto using loadChatHistory_resume_scoped,
        loadChatHistory_resume_synced, inflight_delete_scoped.
Qed.

Lemma mount_invariant (stored : option string) : invariant (mount stored).
Proof.
  unfold mount. apply after_render_invariant.
  constructor; simpl; auto with chat.
  apply checkSessionChange_synced. reflexivity.
Qed.

Lemma step_invariant (w : World) (e : Event) :
  invariant w -> invariant (step w e).
Proof. intros. apply after_render_invariant, handle_invariant. assumption. Qed.

Lemma reachable_invariant (w : World) : reachable w -> invariant w.
Proof.
  induction 1; auto using mount_invariant, step_invariant.
Qed.

Lemma run_reachable (w : World) (es : list Event) :
  reachable w -> reachable (run w es).
Proof.
  revert w. induction es as [|e es IH]; intros w Hw; simpl; [assumption|].
  apply IH. constructor. assumption.
Qed.

(** ** Completion of a query *)

Lemma sendMessage_issued (s s1 : State) (k : Cont) :
  sendMessage s = Awaiting s1 k ->
  exists body,
    issued k body /\ request_of k = Some body /\
    session_id body = sessionId s /\
    db_scope body = scope_js (selectedDb s) /\
    binds_session k = negb (truthy (sessionId s)).
Proof.
  intros H. apply sendMessage_awaiting in H as (_ & -> & _).
  eexists. repeat split; reflexivity.
Qed.

Lemma saveEditedMessage_issued (s s1 : State) (k : Cont) :
  saveEditedMessage s = Awaiting s1 k ->
  exists body i m,
    issued k body /\ request_of k = Some body /\
    session_id body = sessionId s /\
    editingIndex s = Some i /\ messages s !! i = Some m /\
    db_scope body = js_or (dbScope m) (scope_js (selectedDb s)) /\
    binds_session k = false.
Proof.
  intros H. pose proof H as (Hb & i & m & Hi & Hm)%saveEditedMessage_awaiting.
  destruct (saveEditedMessage_installs s i m Hb Hi Hm) as (updated & _ & Heq).
  rewrite Heq in H. inversion H; subst.
  eexists _, i, m. repeat split; auto.
Qed.

Lemma query_started_issued (s s1 : State) (k : Cont) :
  query_started s s1 k ->
  exists body,
    issued k body /\ request_of k = Some body /\
    session_id body = sessionId s.
Proof.
  intros [H|H].
  - apply sendMessage_issued in H as (body & ? & ? & ? & _). eauto.
  - apply saveEditedMessage_issued in H as (body & ? & ? & ? & ? & ? & _).
    eauto.
Qed.

(** Whatever the fetch gives, the resumption appends exactly one assistant
    message, stamped with the scope of the request, and clears the busy
    flag of its path. *)
Lemma resume_query_appends (k : Cont) (body : QueryBody)
    (r : FetchResult QueryData) (s2 : State) :
  issued k body ->
  exists a,
    messages (resume_query k r s2) = messages s2 ++ [a] /\
    oplog (resume_query k r s2) = oplog s2 ++ [OpAppend a] /\
    role a = JStr "assistant" /\
    dbScope a = db_scope body /\
    busy_flag k (resume_query k r s2) = false /\
    a = match r with
        | Resolved _ (Some data) =>
            {| role := JStr "assistant"; content := d_answer data;
               sources := d_sources data;
               responseTime := d_response_time_ms data;
               dbScope := db_scope body |}
        | _ =>
            {| role := JStr "assistant"; content := JStr (apology_of k);
               sources := None; responseTime := JUndefined;
               dbScope := db_scope body |}
        end.
Proof.
  destruct k as [b ksid kdb|b ksc|ksid]; simpl; [| |tauto].
  - intros [-> Hsc]. unfold sendMessage_resume.
    destruct r as [|ok [data|]]; [|destruct (truthy ksid)|]; simpl;
      rewrite Hsc; eexists; repeat split; reflexivity.
  - intros [-> Hsc]. unfold saveEditedMessage_resume.
    destruct r as [|ok [data|]]; simpl;
      rewrite Hsc; eexists; repeat split; reflexivity.
Qed.

(** The session binding after a resumption: written only when the handler
    was called without one and the body could be read. *)
Lemma resume_query_session (k : Cont) (r : FetchResult QueryData)
    (s2 : State) :
  let s3 := resume_query k r s2 in
  match r with
  | Resolved _ (Some data) =>
      if binds_session k then
        sessionId s3 = d_session_id data /\
        lastSessionId s3 = Some (to_string (d_session_id data)) /\
        previousSessionRef s3 = d_session_id data
      else
        sessionId s3 = sessionId s2 /\
        lastSessionId s3 = lastSessionId s2 /\
        previousSessionRef s3 = previousSessionRef s2
  | _ =>
      sessionId s3 = sessionId s2 /\
      lastSessionId s3 = lastSessionId s2 /\
      previousSessionRef s3 = previousSessionRef s2
  end.
Proof.
  destruct k as [b ksid kdb|b ksc|ksid]; simpl.
  - unfold sendMessage_resume.
    destruct r as [|ok [data|]]; [|destruct (truthy ksid)|]; simpl; auto.
  - unfold saveEditedMessage_resume.
    destruct r as [|ok [data|]]; simpl; auto.
  - destruct r as [|ok [data|]]; auto.
Qed.

(** ** Dispatch and regeneration *)

(** C3: for every successful dispatch or edit-regeneration, exactly one new
    assistant message is appended (one call of the appending setter), it
    carries the returned content, sources and response time, and its scope
    is the scope written into the originating request, whatever scope is
    selected in the state the answer arrives in. *)
Theorem C3_success_appends_one_assistant_in_request_scope
    (s s1 : State) (k : Cont) :
  query_started s s1 k ->
  exists body,
    request_of k = Some body /\
    forall (s2 : State) (r : FetchResult QueryData) (data : QueryData),
      succeeded r = Some data ->
      exists a,
        messages (resume_query k r s2) = messages s2 ++ [a] /\
        oplog (resume_query k r s2) = oplog s2 ++ [OpAppend a] /\
        role a = JStr "assistant" /\
        content a = d_answer data /\
        sources a = d_sources data /\
        responseTime a = d_response_time_ms data /\
        dbScope a = db_scope body.
Proof.
  intros (body & Hk & Hreq & _)%query_started_issued.
  exists body. split; [exact Hreq|].
  intros s2 r data Hr.
  destruct (resume_query_appends k body r s2 Hk)
    as (a & Hm & Hl & Hrole & Hsc & _ & Ha).
  exists a. repeat split; try assumption;
    destruct r as [|[] [d|]]; simpl in Hr; try discriminate;
    injection Hr as ->; rewrite Ha; reflexivity.
Qed.

Lemma C3_witness :
  query_started (st (run (mount None) [TypeInput "What is X?"; SelectDb Shared]))
    (st (run (mount None) [TypeInput "What is X?"; SelectDb Shared; ClickSend]))
    (SendK {| query := "What is X?"; session_id := JNull; use_rag := true;
              db_scope := JStr "shared" |} JNull Shared) /\
  exists body,
    request_of
      (SendK {| query := "What is X?"; session_id := JNull; use_rag := true;
                db_scope := JStr "shared" |} JNull Shared) = Some body /\
    forall (s2 : State) (r : FetchResult QueryData) (data : QueryData),
      succeeded r = Some data ->
      exists a,
        messages (resume_query
          (SendK {| query := "What is X?"; session_id := JNull;
                    use_rag := true; db_scope := JStr "shared" |} JNull Shared)
          r s2) = messages s2 ++ [a] /\
        oplog (resume_query
          (SendK {| query := "What is X?"; session_id := JNull;
                    use_rag := true; db_scope := JStr "shared" |} JNull Shared)
          r s2) = oplog s2 ++ [OpAppend a] /\
        role a = JStr "assistant" /\
        content a = d_answer data /\
        sources a = d_sources data /\
        responseTime a = d_response_time_ms data /\
        dbScope a = db_scope body.
Proof.
  assert (H : query_started
    (st (run (mount None) [TypeInput "What is X?"; SelectDb Shared]))
    (st (run (mount None) [TypeInput "What is X?"; SelectDb Shared; ClickSend]))
    (SendK {| query := "What is X?"; session_id := JNull; use_rag := true;
              db_scope := JStr "shared" |} JNull Shared)).
  { left. reflexivity. }
  split; [exact H|].
  exact (C3_success_appends_one_assistant_in_request_scope _ _ _ H).
Defined.

(** C9: after an edit of the user message at index i, the completed
    regeneration (answer or apology) puts its assistant message after the
    last message the transcript holds at that time: every earlier position
    keeps its message, so when messages follow position i the one at i+1 is
    still the old one and the regenerated answer is not adjacent to its
    question. *)
Theorem C9_regenerated_answer_goes_last
    (s s1 : State) (k : Cont) (i : nat) (m : Message) :
  editingIndex s = Some i ->
  messages s !! i = Some m ->
  role m = JStr "user" ->
  saveEditedMessage s = Awaiting s1 k ->
  forall (s2 : State) (r : FetchResult QueryData),
    let s3 := resume_query k r s2 in
    exists a,
      role a = JStr "assistant" /\
      messages s3 = messages s2 ++ [a] /\
      messages s3 !! length (messages s2) = Some a /\
      (forall j, j < length (messages s2) ->
                 messages s3 !! j = messages s2 !! j) /\
      (i + 1 < length (messages s2) ->
       messages s3 !! (i + 1) = messages s2 !! (i + 1) /\
       i + 1 <> length (messages s2)).
Proof.
  intros _ _ _ H s2 r s3.
  apply saveEditedMessage_issued in H as (body & _ & _ & Hk & _).
  destruct (resume_query_appends k body r s2 Hk) as (a & Hm & _ & Hr & _).
  exists a. subst s3. rewrite Hm.
  split; [exact Hr|]. split; [reflexivity|].
  split; [apply list_lookup_middle; reflexivity|].
  split; [intros j Hj; apply lookup_app_l; exact Hj|].
  intros Hi. split; [apply lookup_app_l; exact Hi|lia].
Qed.

(** The state in which the first of two completed turns is being edited. *)
Lemma C9_witness :
  let s :=
    setEditingText "Q1-revised"
      (setEditingIndex (Some 0)
         (setMessages (OpReplaceAll two_turns) two_turns (initial None))) in
  let k :=
    EditK {| query := "Q1-revised"; session_id := JNull; use_rag := true;
             db_scope := JStr "local" |} (JStr "local") in
  exists s1,
    saveEditedMessage s = Awaiting s1 k /\
    messages s1 =
      [user_message "Q1-revised" Local; user_message "Q2" Shared;
       assistant_message "A2" Shared] /\
    messages (resume_query k (Resolved true (Some answer_s1)) s1) =
      [user_message "Q1-revised" Local; user_message "Q2" Shared;
       assistant_message "A2" Shared; assistant_message "A2" Local] /\
    exists a,
      role a = JStr "assistant" /\
      messages (resume_query k (Resolved true (Some answer_s1)) s1) =
        messages s1 ++ [a] /\
      messages (resume_query k (Resolved true (Some answer_s1)) s1)
        !! length (messages s1) = Some a /\
      (forall j, j < length (messages s1) ->
         messages (resume_query k (Resolved true (Some answer_s1)) s1) !! j =
         messages s1 !! j) /\
      (0 + 1 < length (messages s1) ->
       messages (resume_query k (Resolved true (Some answer_s1)) s1)
         !! (0 + 1) = messages s1 !! (0 + 1) /\
       0 + 1 <> length (messages s1)).
Proof.
  intros s k. eexists. split; [reflexivity|].
  split; [reflexivity|]. split; [reflexivity|].
  eapply (C9_regenerated_answer_goes_last s _ k 0 (user_message "Q1" Local));
    reflexivity.
Defined.

(** C4: in every state the component can reach, the regeneration request
    for an edit of the user message at index i carries the scope recorded on
    that message; the scope selected in the input area plays no part: with
    any other selection the same request and the same closure result. *)
Theorem C4_regeneration_uses_scope_of_edited_message
    (w : World) (i : nat) (m : Message) (s1 : State) (k : Cont) :
  reachable w ->
  editingIndex (st w) = Some i ->
  messages (st w) !! i = Some m ->
  role m = JStr "user" ->
  saveEditedMessage (st w) = Awaiting s1 k ->
  exists body,
    request_of k = Some body /\
    db_scope body = dbScope m /\
    forall d : DbScope,
      exists s1', saveEditedMessage (setSelectedDb d (st w)) = Awaiting s1' k.
Proof.
  intros Hw Hi Hm _ Hs.
  pose proof Hs as (Hb & _)%saveEditedMessage_awaiting.
  assert (Hsc : truthy (dbScope m) = true).
  { destruct (reachable_invariant w Hw) as [Hall _ _].
    eapply (proj1 (Forall_lookup _ _)) in Hall; [|exact Hm]. exact Hall. }
  destruct (saveEditedMessage_installs (st w) i m Hb Hi Hm)
    as (updated & _ & Heq).
  rewrite Heq in Hs. inversion Hs; subst s1 k. clear Hs.
  rewrite js_or_truthy by exact Hsc.
  eexists. split; [reflexivity|]. split; [reflexivity|].
  intros d.
  destruct (saveEditedMessage_installs (setSelectedDb d (st w)) i m Hb Hi Hm)
    as (updated' & _ & Heq').
  rewrite js_or_truthy in Heq' by exact Hsc.
  eexists. exact Heq'.
Qed.

(** A question answered against the local scope is edited while the
    shared scope is selected. *)
Lemma C4_witness :
  selectedDb (st editing_local) = Shared /\
  exists body,
    request_of editing_local_request = Some body /\
    db_scope body = dbScope (user_message "Q1" Local) /\
    forall d : DbScope,
      exists s1',
        saveEditedMessage (setSelectedDb d (st editing_local)) =
        Awaiting s1' editing_local_request.
Proof.
  split; [vm_compute; reflexivity|].
  apply (C4_regeneration_uses_scope_of_edited_message editing_local 0
           (user_message "Q1" Local) editing_local_saved
           editing_local_request).
  - apply run_reachable. constructor.
  - vm_compute. reflexivity.
  - vm_compute. reflexivity.
  - reflexivity.
  - vm_compute. reflexivity.
Defined.

(** ** Session binding at dispatch *)



(** ** Scopes on messages *)

(** C10: every message of every transcript the component can reach carries
    a scope that is neither null nor undefined; the user message that
    [sendMessage] appends carries the scope written into its request, which
    is the scope selected at that time; a completed dispatch or
    regeneration, answer or apology, stamps its message with the scope of
    its request; a history record is installed with its own scope when it
    has one and with 'local' when it has none. *)
Theorem C10_every_message_has_a_scope :
  (forall w : World,
      reachable w ->
      Forall (fun m => dbScope m <> JNull /\ dbScope m <> JUndefined)
             (messages (st w))) /\
  (forall (s s1 : State) (k : Cont),
      sendMessage s = Awaiting s1 k ->
      exists body u,
        request_of k = Some body /\
        messages s1 = messages s ++ [u] /\
        role u = JStr "user" /\
        content u = JStr (input s) /\
        dbScope u = db_scope body /\
        db_scope body = scope_js (selectedDb s)) /\
  (forall (s s1 : State) (k : Cont),
      query_started s s1 k ->
      exists body,
        request_of k = Some body /\
        forall (s2 : State) (r : FetchResult QueryData),
        exists a,
          messages (resume_query k r s2) = messages s2 ++ [a] /\
          dbScope a = db_scope body) /\
  (forall r : HistoryRecord,
      dbScope (loaded_message r) =
        if truthy (h_db_scope r) then h_db_scope r else JStr "local").
Proof.
  split; [|split; [|split]].
  - intros w Hw. destruct (reachable_invariant w Hw) as [Hall _ _].
    eapply Forall_impl; [exact Hall|].
    intros m Hm. apply truthy_not_null. exact Hm.
  - intros s s1 k H.
    pose proof H as (body & _ & Hreq & _ & Hsc & _)%sendMessage_issued.
    apply sendMessage_awaiting in H as (_ & _ & Hm).
    exists body. eexists. split; [exact Hreq|]. split; [exact Hm|].
    split; [reflexivity|]. split; [reflexivity|].
    split; [symmetry; exact Hsc|exact Hsc].
  - intros s s1 k (body & Hk & Hreq & _)%query_started_issued.
    exists body. split; [exact Hreq|]. intros s2 r.
    destruct (resume_query_appends k body r s2 Hk) as (a & Hm & _ & _ & Hs & _).
    eauto.
  - reflexivity.
Qed.

(** A reachable transcript; and a question sent with the shared scope
    selected. *)
Lemma C10_witness :
  (Forall (fun m => dbScope m <> JNull /\ dbScope m <> JUndefined)
          (messages (st regenerating)) /\
   length (messages (st regenerating)) = 1) /\
  exists body u,
    request_of
      (SendK {| query := "What is X?"; session_id := JNull; use_rag := true;
                db_scope := JStr "shared" |} JNull Shared) = Some body /\
    messages
      (st (run (mount None) [TypeInput "What is X?"; SelectDb Shared;
                             ClickSend])) =
      messages (st (run (mount None) [TypeInput "What is X?";
                                      SelectDb Shared])) ++ [u] /\
    role u = JStr "user" /\
    content u =
      JStr (input (st (run (mount None) [TypeInput "What is X?";
                                         SelectDb Shared]))) /\
    dbScope u = db_scope body /\
    db_scope body =
      scope_js (selectedDb (st (run (mount None) [TypeInput "What is X?";
                                                  SelectDb Shared]))).
Proof.
  split.
  - split; [|vm_compute; reflexivity].
    apply (proj1 C10_every_message_has_a_scope regenerating).
    apply run_reachable. constructor.
  - apply (proj1 (proj2 C10_every_message_has_a_scope)
             (st (run (mount None) [TypeInput "What is X?"; SelectDb Shared]))
             (st (run (mount None) [TypeInput "What is X?"; SelectDb Shared;
                                    ClickSend]))).
    vm_compute. reflexivity.
Defined.

(** ** Session changes seen by the poll *)

(** The state [checkSessionChange] leaves when it sees a new value. *)
Lemma checkSessionChange_changed (s : State) :
  of_storage (lastSessionId s) <> previousSessionRef s ->
  checkSessionChange s =
    setEditingText ""
      (setEditingIndex None
         (reset_messages
            (setSessionId (of_storage (lastSessionId s))
               (set_previousSessionRef (of_storage (lastSessionId s)) s)))).
Proof. intros H. unfold checkSessionChange. case_decide; [contradiction|reflexivity]. Qed.

(** A tick that sees a change is followed by a run of [loadChatHistory]. *)
Lemma step_Tick_changed (w : World) :
  invariant w ->
  of_storage (lastSessionId (st w)) <> previousSessionRef (st w) ->
  step w Tick =
    settle (with_state w (checkSessionChange (st w)))
           (loadChatHistory (checkSessionChange (st w))).
Proof.
  intros [_ _ Hsync] Hne. unfold step, after_render. cbn [handle].
  rewrite checkSessionChange_changed by exact Hne. cbn.
  destruct (decide _) as [E|]; [|reflexivity].
  exfalso. apply Hne. rewrite E. exact Hsync.
Qed.

(** C7, as the code has it: when the poll sees that the shared session id
    differs from the last value seen, the transcript is emptied at once and
    the new value becomes the bound id, before anything is installed.  For a
    usable id exactly one reset is logged and one history request is
    started; when that request completes, the fetched history replaces the
    transcript if the server answered with a success status and a readable
    body, and otherwise the transcript stays empty.  For a null or empty id
    two resets are logged, the one of the check and the one of the history
    effect, no request is started and the transcript stays empty. *)
Theorem C7_session_change_resets_then_loads (w : World) :
  reachable w ->
  of_storage (lastSessionId (st w)) <> previousSessionRef (st w) ->
  let new := of_storage (lastSessionId (st w)) in
  let w1 := step w Tick in
  messages (st w1) = [] /\
  sessionId (st w1) = new /\
  previousSessionRef (st w1) = new /\
  (truthy new = false ->
   oplog (st w1) = oplog (st w) ++ [OpReset; OpReset] /\
   inflight w1 = inflight w) /\
  (truthy new = true ->
   oplog (st w1) = oplog (st w) ++ [OpReset] /\
   inflight w1 = inflight w ++ [HistoryK new] /\
   forall r : FetchResult (list HistoryRecord),
     let w2 := step w1 (HistoryDone (length (inflight w)) r) in
     match succeeded r with
     | Some data =>
         messages (st w2) = map loaded_message data /\
         oplog (st w2) =
           oplog (st w) ++ [OpReset; OpReplaceAll (map loaded_message data)]
     | None =>
         messages (st w2) = [] /\
         oplog (st w2) = oplog (st w) ++ [OpReset]
     end).
Proof.
  intros Hw Hne new w1. subst w1.
  rewrite step_Tick_changed by auto using reachable_invariant.
  rewrite checkSessionChange_changed by exact Hne. fold new.
  unfold loadChatHistory. cbn [sessionId setEditingText setEditingIndex
    reset_messages setMessages setSessionId].
  destruct (truthy new) eqn:Ht; cbn.
  - split; [reflexivity|]. split; [reflexivity|]. split; [reflexivity|].
    split; [discriminate|]. intros _.
    split; [reflexivity|]. split; [reflexivity|].
    intros r. unfold step. cbn [handle inflight st].
    rewrite list_lookup_middle by reflexivity.
    unfold after_render. cbn [st sessionId setLoadingHistory].
    assert (Hs : forall s0,
               sessionId (loadChatHistory_resume r s0) = sessionId s0).
    { intros s0. unfold loadChatHistory_resume.
      destruct r as [|[] [data|]]; reflexivity. }
    rewrite Hs. cbn. case_decide; [|congruence].
    destruct r as [|[] [data|]]; cbn; rewrite <- ?app_assoc; auto.
  - split; [reflexivity|]. split; [reflexivity|]. split; [reflexivity|].
    split; [|discriminate]. intros _.
    split; [|reflexivity]. rewrite <- app_assoc. reflexivity.
Qed.

(** The sidebar selects session s2 over a fresh conversation; and the
    pointer of a resumed session is removed. *)
Lemma C7_witness :
  (of_storage (lastSessionId (st switched)) <>
     previousSessionRef (st switched) /\
   messages (st (step switched Tick)) = [] /\
   sessionId (st (step switched Tick)) = JStr "s2" /\
   oplog (st (step switched Tick)) = oplog (st switched) ++ [OpReset] /\
   inflight (step switched Tick) =
     inflight switched ++ [HistoryK (JStr "s2")]) /\
  (of_storage (lastSessionId (st unselected)) <>
     previousSessionRef (st unselected) /\
   messages (st (step unselected Tick)) = [] /\
   sessionId (st (step unselected Tick)) = JNull /\
   oplog (st (step unselected Tick)) =
     oplog (st unselected) ++ [OpReset; OpReset] /\
   inflight (step unselected Tick) = inflight unselected).
Proof.
  assert (H1 : of_storage (lastSessionId (st switched)) <>
               previousSessionRef (st switched))
    by (vm_compute; discriminate).
  assert (H2 : of_storage (lastSessionId (st unselected)) <>
               previousSessionRef (st unselected))
    by (vm_compute; discriminate).
  split.
  - split; [exact H1|].
    destruct (C7_session_change_resets_then_loads switched)
      as (Hm & Hs & _ & _ & Ht); [|exact H1|].
    { unfold switched. apply reach_step, reach_mount. }
    destruct Ht as (Ho & Hi & _); [reflexivity|].
    split; [exact Hm|]. split; [exact Hs|]. split; [exact Ho|exact Hi].
  - split; [exact H2|].
    destruct (C7_session_change_resets_then_loads unselected)
      as (Hm & Hs & _ & Hf & _); [|exact H2|].
    { unfold unselected. apply run_reachable, reach_mount. }
    destruct Hf as (Ho & Hi); [reflexivity|].
    split; [exact Hm|]. split; [exact Hs|]. split; [exact Ho|exact Hi].
Defined.

(** C7 fails as stated: a poll tick that sees the pointer of the bound
    session removed resets the transcript twice, once in the check (113)
    and once in the history effect that follows the change of [sessionId]
    (127), not exactly once. *)
Lemma C7_counterexample :
  reachable unselected /\
  of_storage (lastSessionId (st unselected)) <>
    previousSessionRef (st unselected) /\
  oplog (st (step unselected Tick)) =
    oplog (st unselected) ++ [OpReset; OpReset] /\
  oplog (st (step unselected Tick)) <> oplog (st unselected) ++ [OpReset].
Proof.
  split; [unfold unselected; apply run_reachable, reach_mount|].
  split; [vm_compute; discriminate|].
  split; [vm_compute; reflexivity|]. vm_compute. discriminate.
Qed.

(** ** Requests while a query is in flight *)

Lemma after_render_same (w : World) : after_render (sessionId (st w)) w = w.
Proof. unfold after_render. case_decide; congruence. Qed.

(** C1, as the code has it: the handlers hold no in-flight check and signal
    nothing; the render disables the control of the path that is busy.
    While [loading] is set, the send button and the Enter key of the input
    area do nothing: no message is appended and the whole state, [loading]
    included, stays as it is.  While [isRegenerating] is set, the save
    button of the edit box does nothing. *)
Theorem C1_busy_path_controls_do_nothing (w : World) :
  (loading (st w) = true ->
   step w ClickSend = w /\ step w KeyEnter = w) /\
  (isRegenerating (st w) = true -> step w ClickSave = w).
Proof.
  split.
  - intros Hl. unfold step, handle, send_disabled. rewrite Hl. cbn.
    split; apply after_render_same.
  - intros Hr. unfold step, handle, save_disabled. rewrite Hr.
    rewrite andb_false_r. apply after_render_same.
Qed.

Lemma C1_witness :
  (loading (st asked) = true /\
   step asked ClickSend = asked /\ step asked KeyEnter = asked) /\
  (isRegenerating (st regenerating) = true /\
   step regenerating ClickSave = regenerating).
Proof.
  assert (Hl : loading (st asked) = true) by (vm_compute; reflexivity).
  assert (Hr : isRegenerating (st regenerating) = true)
    by (vm_compute; reflexivity).
  split.
  - split; [exact Hl|].
    exact (proj1 (C1_busy_path_controls_do_nothing asked) Hl).
  - split; [exact Hr|].
    exact (proj2 (C1_busy_path_controls_do_nothing regenerating) Hr).
Defined.

(** C1 fails as stated.  With a regeneration in flight the send button is
    enabled and appends the typed question; with a question in flight the
    save button of an open edit box rewrites the transcript; and
    [sendMessage] itself, called while [loading] is set, appends and
    suspends: nothing is rejected. *)
Lemma C1_counterexample :
  (reachable regenerating /\
   dispatching (st regenerating) = true /\
   messages (st (step regenerating ClickSend)) =
     messages (st regenerating) ++ [user_message "Q2" Local] /\
   length (inflight (step regenerating ClickSend)) = 2) /\
  (reachable sending /\
   dispatching (st sending) = true /\
   messages (st sending) =
     [user_message "Q1" Local;
      {| role := JStr "assistant"; content := JStr send_apology;
         sources := None; responseTime := JUndefined;
         dbScope := JStr "local" |};
      user_message "Q2" Local] /\
   messages (st (step sending ClickSave)) =
     [user_message "Q1-revised" Local; user_message "Q2" Local] /\
   length (inflight (step sending ClickSave)) = 2) /\
  (loading (setInput "again" (st asked)) = true /\
   exists s1 k,
     sendMessage (setInput "again" (st asked)) = Awaiting s1 k /\
     messages s1 = messages (st asked) ++ [user_message "again" Local]).
Proof.
  split; [|split].
  - split; [apply run_reachable; constructor|].
    split; [vm_compute; reflexivity|].
    split; vm_compute; reflexivity.
  - split; [apply run_reachable; constructor|].
    split; [vm_compute; reflexivity|].
    split; [vm_compute; reflexivity|].
    split; vm_compute; reflexivity.
  - split; [vm_compute; reflexivity|].
    eexists _, _. split; vm_compute; reflexivity.
Qed.

(** ** Edits without a valid target *)

(** C2, as the code has it: [saveEditedMessage] checks no role and signals
    nothing; the edit box and its save button are rendered only for an
    existing user message.  When [editingIndex] points at no message or at
    a message that is not a user message, the save button does nothing and
    the whole state stays as it is; and [saveEditedMessage] itself, called
    with no message at [editingIndex], returns or raises before it sets
    any state. *)
Theorem C2_no_edit_without_user_target (w : World) :
  (forall m, edit_target (st w) = Some m -> role m <> JStr "user") ->
  step w ClickSave = w /\
  (edit_target (st w) = None ->
   saveEditedMessage (st w) = Threw \/
   saveEditedMessage (st w) = Returned (st w)).
Proof.
  unfold edit_target. intros Ht. split.
  - unfold step, handle, edit_box.
    destruct (editingIndex (st w)) as [idx|]; cbn;
      [|apply after_render_same].
    destruct (messages (st w) !! idx) as [msg|]; cbn;
      [|apply after_render_same].
    rewrite bool_decide_eq_false_2 by (apply Ht; reflexivity).
    apply after_render_same.
  - intros Hn. unfold saveEditedMessage.
    destruct (blank (editingText (st w))); [right; reflexivity|].
    left. destruct (editingIndex (st w)) as [idx|]; [|reflexivity].
    rewrite Hn. reflexivity.
Qed.

Lemma C2_witness :
  (edit_target (st stale_edit) =
     Some {| role := JStr "assistant"; content := JStr "Hello";
             sources := Some []; responseTime := JNull;
             dbScope := JStr "local" |} /\
   step stale_edit ClickSave = stale_edit) /\
  (edit_target (st dangling_edit) = None /\
   step dangling_edit ClickSave = dangling_edit /\
   saveEditedMessage (st dangling_edit) = Threw).
Proof.
  split.
  - split; [vm_compute; reflexivity|].
    apply (C2_no_edit_without_user_target stale_edit).
    intros m Hm. vm_compute in Hm. injection Hm as <-. discriminate.
  - assert (Hn : edit_target (st dangling_edit) = None)
      by (vm_compute; reflexivity).
    split; [exact Hn|].
    destruct (C2_no_edit_without_user_target dangling_edit) as [Hs Hc].
    { intros m Hm. rewrite Hn in Hm. discriminate. }
    split; [exact Hs|].
    destruct (Hc Hn) as [H|H]; [exact H|].
    vm_compute in H. discriminate.
Defined.

(** C2 fails as stated: in a state the component can reach, the open edit
    points at an assistant message; [saveEditedMessage] called there
    rewrites that message and sends a regeneration request. *)
Lemma C2_counterexample :
  reachable stale_edit /\
  edit_target (st stale_edit) =
    Some {| role := JStr "assistant"; content := JStr "Hello";
            sources := Some []; responseTime := JNull;
            dbScope := JStr "local" |} /\
  exists s1 k,
    saveEditedMessage (st stale_edit) = Awaiting s1 k /\
    messages s1 =
      [{| role := JStr "assistant"; content := JStr "Q1";
          sources := Some []; responseTime := JNull;
          dbScope := JStr "local" |}] /\
    messages s1 <> messages (st stale_edit) /\
    request_of k =
      Some {| query := "Q1"; session_id := JStr "s1"; use_rag := true;
              db_scope := JStr "local" |}.
Proof.
  split; [apply run_reachable; constructor|].
  split; [vm_compute; reflexivity|].
  eexists _, _. split; [vm_compute; reflexivity|].
  split; [reflexivity|]. split; [vm_compute; discriminate|reflexivity].
Qed.

(** ** Failed queries *)

(** What the [catch] blocks do: when the fetch rejects or the body cannot
    be read, one apology with the scope of the request is appended and the
    busy flag of the path is cleared; the session binding is untouched. *)
Lemma resume_query_caught (k : Cont) (body : QueryBody)
    (r : FetchResult QueryData) (s2 : State) :
  issued k body ->
  caught r = true ->
  let s3 := resume_query k r s2 in
  messages s3 =
    messages s2 ++
      [{| role := JStr "assistant"; content := JStr (apology_of k);
          sources := None; responseTime := JUndefined;
          dbScope := db_scope body |}] /\
  busy_flag k s3 = false /\
  sessionId s3 = sessionId s2 /\
  lastSessionId s3 = lastSessionId s2.
Proof.
  intros Hk Hc s3. subst s3.
  destruct (resume_query_appends k body r s2 Hk)
    as (a & Hm & _ & _ & _ & Hb & Ha).
  pose proof (resume_query_session k r s2) as Hs. cbv zeta in Hs.
  destruct r as [|ok [data|]]; try discriminate;
    subst a; destruct Hs as (? & ? & _); auto.
Qed.

(** C5 at a failing input: the server answers the first question of a
    fresh conversation with an error status and a JSON error body.  The
    [catch] block does not run: the message appended is an assistant message
    whose content is undefined, not the apology; [undefined] is bound as the
    session id and the text "undefined" is written to the shared entry; the
    effect that follows the change of [sessionId] then empties the
    transcript.  On the edit path the same answer appends the same kind of
    message. *)
Theorem C5_error_status_with_json_body :
  let r := Resolved false (Some error_body) in
  let answer_without_content :=
    {| role := JStr "assistant"; content := JUndefined; sources := None;
       responseTime := JUndefined; dbScope := JStr "local" |} in
  failed r = true /\
  messages (st (handle asked (QueryDone 0 r))) =
    [user_message "What is X?" Local; answer_without_content] /\
  sessionId (st (handle asked (QueryDone 0 r))) = JUndefined /\
  lastSessionId (st (handle asked (QueryDone 0 r))) = Some "undefined" /\
  messages (st (step asked (QueryDone 0 r))) = [] /\
  messages (st (step (step sending ClickSave) (QueryDone 1 r))) =
    [user_message "Q1-revised" Local; user_message "Q2" Local;
     answer_without_content] /\
  content answer_without_content <> JStr send_apology /\
  content answer_without_content <> JStr edit_apology.
Proof.
  intros r a.
  split; [reflexivity|].
  split; [vm_compute; reflexivity|].
  split; [vm_compute; reflexivity|].
  split; [vm_compute; reflexivity|].
  split; [vm_compute; reflexivity|].
  split; [vm_compute; reflexivity|].
  split; discriminate.
Qed.

(** * Further properties of the running component *)

(** ** Busy flags and requests in flight *)

Lemma filter_snoc_length (p : Cont -> bool) (ks : list Cont) (k : Cont) :
  length (List.filter p (ks ++ [k])) =
  length (List.filter p ks) + flag_count (p k).
Proof.
  rewrite List.filter_app, length_app. simpl.
  destruct (p k); reflexivity.
Qed.

Lemma filter_delete_length (p : Cont -> bool) (ks : list Cont) (n : nat)
    (k : Cont) :
  ks !! n = Some k ->
  length (List.filter p (delete n ks)) + flag_count (p k) =
  length (List.filter p ks).
Proof.
  revert n. induction ks as [|k0 ks IH]; intros [|n] Hn; try discriminate.
  - injection Hn as ->. simpl. destruct (p k); simpl; lia.
  - simpl in Hn. specialize (IH n Hn). cbn [delete list_delete List.filter].
    change (list_delete n ks) with (delete n ks).
    destruct (p k0); simpl; [f_equal|]; exact IH.
Qed.

Lemma flags_exact_same (w w' : World) :
  inflight w' = inflight w ->
  loading (st w') = loading (st w) ->
  isRegenerating (st w') = isRegenerating (st w) ->
  (loadingHistory (st w') = true -> loadingHistory (st w) = true) ->
  flags_exact w -> flags_exact w'.
Proof.
  intros Hi Hl Hr Hh [H1 H2 H3]. unfold in_flight in *.
  constructor; unfold in_flight; rewrite Hi, ?Hl, ?Hr; auto.
Qed.

Lemma checkSessionChange_flags (s : State) :
  loading (checkSessionChange s) = loading s /\
  isRegenerating (checkSessionChange s) = isRegenerating s /\
  loadingHistory (checkSessionChange s) = loadingHistory s.
Proof. unfold checkSessionChange. case_decide; auto. Qed.

Lemma after_render_flags (before : jsval) (w : World) :
  flags_exact w -> flags_exact (after_render before w).
Proof.
  intros Hw. unfold after_render. case_decide; [assumption|].
  unfold loadChatHistory. destruct (truthy _); cbn.
  - destruct Hw as [H1 H2 H3]. unfold in_flight in *.
    constructor; unfold in_flight; cbn; rewrite filter_snoc_length; cbn;
      rewrite ?Nat.add_0_r; auto. intros _. lia.
  - eapply flags_exact_same; [| | | |exact Hw]; auto.
Qed.

Lemma sendMessage_flags (w : World) :
  loading (st w) = false ->
  flags_exact w -> flags_exact (settle w (sendMessage (st w))).
Proof.
  intros Hl Hw. unfold sendMessage. destruct (blank _); cbn.
  - eapply flags_exact_same; [| | | |exact Hw]; auto.
  - destruct Hw as [H1 H2 H3]. unfold in_flight in *. rewrite Hl in H1.
    constructor; unfold in_flight; cbn; rewrite filter_snoc_length; cbn;
      rewrite ?Nat.add_0_r, ?H1; auto;
    try (intros Hh; specialize (H3 Hh); lia).
Qed.

Lemma saveEditedMessage_flags (w : World) :
  isRegenerating (st w) = false ->
  flags_exact w -> flags_exact (settle w (saveEditedMessage (st w))).
Proof.
  intros Hr Hw. unfold saveEditedMessage.
  destruct (blank _); cbn;
    [eapply flags_exact_same; [| | | |exact Hw]; auto|].
  destruct (editingIndex (st w)) as [i|]; cbn; [|assumption].
  destruct (messages (st w) !! i) as [m|]; cbn; [|assumption].
  destruct (editAndTruncate _ _ _) as [updated|]; cbn; [|assumption].
  destruct Hw as [H1 H2 H3]. unfold in_flight in *. rewrite Hr in H2.
  constructor; unfold in_flight; cbn; rewrite filter_snoc_length; cbn;
    rewrite ?Nat.add_0_r, ?H2; auto;
    try (intros Hh; specialize (H3 Hh); lia).
Qed.

Lemma resume_flags_send k_sid k_db r (s : State) :
  loading (sendMessage_resume k_sid k_db r s) = false /\
  isRegenerating (sendMessage_resume k_sid k_db r s) = isRegenerating s /\
  loadingHistory (sendMessage_resume k_sid k_db r s) = loadingHistory s.
Proof.
  unfold sendMessage_resume.
  destruct r as [|ok [data|]]; [|destruct (truthy k_sid)|]; cbn; auto.
Qed.

Lemma resume_flags_edit k_scope r (s : State) :
  loading (saveEditedMessage_resume k_scope r s) = loading s /\
  isRegenerating (saveEditedMessage_resume k_scope r s) = false /\
  loadingHistory (saveEditedMessage_resume k_scope r s) = loadingHistory s.
Proof.
  unfold saveEditedMessage_resume. destruct r as [|ok [data|]]; cbn; auto.
Qed.

Lemma resume_flags_history r (s : State) :
  loading (loadChatHistory_resume r s) = loading s /\
  isRegenerating (loadChatHistory_resume r s) = isRegenerating s /\
  loadingHistory (loadChatHistory_resume r s) = false.
Proof.
  unfold loadChatHistory_resume. destruct r as [|[] [data|]]; cbn; auto.
Qed.

Lemma flag_count_positive (b : bool) (n : nat) :
  n + 1 = flag_count b -> b = true /\ n = 0.
Proof. destruct b; simpl; intros; split; auto; lia. Qed.

Lemma handle_flags (w : World) (e : Event) :
  flags_exact w -> flags_exact (handle w e).
Proof.
  intros Hw. destruct e; cbn [handle];
    try (eapply flags_exact_same; [| | | |exact Hw]; solve [auto]).
  - eapply flags_exact_same; [| | | |exact Hw]; cbn;
      try apply checkSessionChange_flags; auto.
    intros H. destruct (checkSessionChange_flags (st w)) as (_ & _ & <-).
    exact H.
  - destruct (loading (st w)); [assumption|].
    eapply flags_exact_same; [| | | |exact Hw]; auto.
  - destruct (blank t); [assumption|].
    eapply flags_exact_same; [| | | |exact Hw]; auto.
  - unfold send_disabled. destruct (loading (st w)) eqn:Hl; [assumption|].
    cbn. destruct (blank (input (st w))) eqn:Hb; [assumption|].
    apply sendMessage_flags; assumption.
  - destruct (loading (st w)) eqn:Hl; [assumption|].
    apply sendMessage_flags; assumption.
  - destruct (messages (st w) !! idx) as [msg|]; [|assumption].
    destruct (_ && _); [|assumption].
    destruct (content msg); try assumption.
    eapply flags_exact_same; [| | | |exact Hw]; auto.
  - destruct (edit_box (st w)); [|assumption].
    eapply flags_exact_same; [| | | |exact Hw]; auto.
  - unfold save_disabled. destruct (edit_box (st w)); [|assumption].
    destruct (isRegenerating (st w)) eqn:Hr; [assumption|].
    cbn. destruct (blank (editingText (st w))); [assumption|].
    cbn. apply saveEditedMessage_flags; assumption.
  - destruct (_ && _); [|assumption].
    eapply flags_exact_same; [| | | |exact Hw]; auto.
  - destruct (inflight w !! n) as [[body ks kd|body ksc|ksid]|] eqn:E;
      try assumption.
    + destruct Hw as [H1 H2 H3]. unfold in_flight in *.
      pose proof (filter_delete_length is_send _ _ _ E) as D1.
      pose proof (filter_delete_length is_edit _ _ _ E) as D2.
      pose proof (filter_delete_length is_history _ _ _ E) as D3.
      cbn in D1, D2, D3.
      destruct (resume_flags_send ks kd r (st w)) as (F1 & F2 & F3).
      constructor; unfold in_flight; cbn [st inflight];
        rewrite ?F1, ?F2, ?F3.
      * rewrite H1 in D1. apply flag_count_positive in D1 as [_ ->].
        reflexivity.
      * lia.
      * intros Hh. specialize (H3 Hh). lia.
    + destruct Hw as [H1 H2 H3]. unfold in_flight in *.
      pose proof (filter_delete_length is_send _ _ _ E) as D1.
      pose proof (filter_delete_length is_edit _ _ _ E) as D2.
      pose proof (filter_delete_length is_history _ _ _ E) as D3.
      cbn in D1, D2, D3.
      destruct (resume_flags_edit ksc r (st w)) as (F1 & F2 & F3).
      constructor; unfold in_flight; cbn [st inflight];
        rewrite ?F1, ?F2, ?F3.
      * lia.
      * rewrite H2 in D2. apply flag_count_positive in D2 as [_ ->].
        reflexivity.
      * intros Hh. specialize (H3 Hh). lia.
  - destruct (inflight w !! n) as [[body ks kd|body ksc|ksid]|] eqn:E;
      try assumption.
    destruct Hw as [H1 H2 H3]. unfold in_flight in *.
    pose proof (filter_delete_length is_send _ _ _ E) as D1.
    pose proof (filter_delete_length is_edit _ _ _ E) as D2.
    cbn in D1, D2.
    destruct (resume_flags_history r (st w)) as (F1 & F2 & F3).
    constructor; unfold in_flight; cbn [st inflight];
      rewrite ?F1, ?F2, ?F3; [lia|lia|discriminate].
Qed.

Lemma mount_flags (stored : option string) : flags_exact (mount stored).
Proof.
  unfold mount. apply after_render_flags.
  destruct (checkSessionChange_flags (initial stored)) as (E1 & E2 & E3).
  constructor; unfold in_flight; cbn; rewrite ?E1, ?E2, ?E3; cbn; auto;
    discriminate.
Qed.

Lemma reachable_flags (w : World) : reachable w -> flags_exact w.
Proof.
  induction 1; [apply mount_flags|].
  apply after_render_flags, handle_flags. assumption.
Qed.

(** X1: in every state the component can reach, at most one new-message
    query and at most one regeneration are in flight, and the busy flags
    say exactly which: [loading] is set precisely when a new-message query
    is in flight and [isRegenerating] precisely when a regeneration is. *)
Theorem X1_busy_flags_count_queries_in_flight (w : World) :
  reachable w ->
  in_flight is_send w = flag_count (loading (st w)) /\
  in_flight is_edit w = flag_count (isRegenerating (st w)) /\
  in_flight is_send w <= 1 /\
  in_flight is_edit w <= 1.
Proof.
  intros [H1 H2 _]%reachable_flags. rewrite H1, H2.
  repeat split; destruct (loading (st w)), (isRegenerating (st w)); simpl; lia.
Qed.

Lemma X1_witness :
  in_flight is_send both_paths_busy = 1 /\
  in_flight is_edit both_paths_busy = 1 /\
  in_flight is_send both_paths_busy =
    flag_count (loading (st both_paths_busy)) /\
  in_flight is_edit both_paths_busy =
    flag_count (isRegenerating (st both_paths_busy)) /\
  in_flight is_send both_paths_busy <= 1 /\
  in_flight is_edit both_paths_busy <= 1.
Proof.
  split; [vm_compute; reflexivity|]. split; [vm_compute; reflexivity|].
  apply (X1_busy_flags_count_queries_in_flight both_paths_busy).
  unfold both_paths_busy, regenerating.
  apply reach_step, run_reachable, reach_mount.
Defined.

(** X2: in every state the component can reach, the history spinner
    ([loadingHistory]) is on only while a history request is in flight. *)
Theorem X2_history_spinner_has_a_request (w : World) :
  reachable w ->
  loadingHistory (st w) = true ->
  exists n sid, inflight w !! n = Some (HistoryK sid).
Proof.
  intros [_ _ H3]%reachable_flags Hl. specialize (H3 Hl).
  unfold in_flight in H3.
  destruct (List.filter is_history (inflight w)) as [|k ks] eqn:E;
    [simpl in H3; lia|].
  assert (Hin : In k (List.filter is_history (inflight w)))
    by (rewrite E; left; reflexivity).
  apply List.filter_In in Hin as [Hin Hk].
  apply list_elem_of_In, list_elem_of_lookup in Hin as [n Hn].
  destruct k; try discriminate. eauto.
Qed.

Lemma X2_witness :
  loadingHistory (st (mount (Some "s0"))) = true /\
  exists n sid, inflight (mount (Some "s0")) !! n = Some (HistoryK sid).
Proof.
  assert (H : loadingHistory (st (mount (Some "s0"))) = true)
    by (vm_compute; reflexivity).
  split; [exact H|].
  apply (X2_history_spinner_has_a_request (mount (Some "s0")));
    [apply reach_mount|exact H].
Defined.

(** ** The poll and the shared pointer *)

Lemma with_state_same (w : World) : with_state w (st w) = w.
Proof. destruct w. reflexivity. Qed.

(** A tick that sees no change leaves the world as it is. *)
Lemma step_Tick_unchanged (w : World) :
  of_storage (lastSessionId (st w)) = previousSessionRef (st w) ->
  step w Tick = w.
Proof.
  intros He. unfold step. cbn [handle]. unfold checkSessionChange.
  rewrite decide_True by exact He.
  rewrite with_state_same. apply after_render_same.
Qed.

(** What a tick that sees a change leaves behind. *)
Lemma step_Tick_changed_state (w : World) :
  invariant w ->
  of_storage (lastSessionId (st w)) <> previousSessionRef (st w) ->
  let new := of_storage (lastSessionId (st w)) in
  messages (st (step w Tick)) = [] /\
  sessionId (st (step w Tick)) = new /\
  previousSessionRef (st (step w Tick)) = new /\
  lastSessionId (st (step w Tick)) = lastSessionId (st w) /\
  inflight (step w Tick) =
    inflight w ++ (if truthy new then [HistoryK new] else []).
Proof.
  intros Hw Hne new. rewrite step_Tick_changed by assumption.
  rewrite checkSessionChange_changed by exact Hne. fold new.
  unfold loadChatHistory. cbn [sessionId setEditingText setEditingIndex
    reset_messages setMessages setSessionId].
  destruct (truthy new); cbn; rewrite ?app_nil_r; auto.
Qed.

(** X3: in every state the component can reach, the bound session id
    equals the last value the poll has seen; after a poll tick the bound
    id, the last-seen value and the shared pointer agree, and a second tick
    changes nothing. *)
Theorem X3_poll_brings_binding_and_pointer_together (w : World) :
  reachable w ->
  sessionId (st w) = previousSessionRef (st w) /\
  sessionId (st (step w Tick)) =
    of_storage (lastSessionId (st (step w Tick))) /\
  previousSessionRef (st (step w Tick)) =
    of_storage (lastSessionId (st (step w Tick))) /\
  step (step w Tick) Tick = step w Tick.
Proof.
  intros Hw. pose proof (reachable_invariant w Hw) as Hinv.
  pose proof Hinv as [_ _ Hsync]. split; [exact Hsync|].
  assert (H : sessionId (st (step w Tick)) =
              of_storage (lastSessionId (st (step w Tick))) /\
              previousSessionRef (st (step w Tick)) =
              of_storage (lastSessionId (st (step w Tick)))).
  { destruct (decide (of_storage (lastSessionId (st w)) =
                      previousSessionRef (st w))) as [He|Hne].
    - rewrite step_Tick_unchanged by exact He. split; congruence.
    - destruct (step_Tick_changed_state w Hinv Hne) as (_ & -> & -> & -> & _).
      split; reflexivity. }
  destruct H as [H1 H2]. split; [exact H1|]. split; [exact H2|].
  apply step_Tick_unchanged. symmetry. exact H2.
Qed.

Lemma X3_witness :
  sessionId (st switched) = JNull /\
  sessionId (st (step switched Tick)) = JStr "s2" /\
  (sessionId (st switched) = previousSessionRef (st switched) /\
   sessionId (st (step switched Tick)) =
     of_storage (lastSessionId (st (step switched Tick))) /\
   previousSessionRef (st (step switched Tick)) =
     of_storage (lastSessionId (st (step switched Tick))) /\
   step (step switched Tick) Tick = step switched Tick).
Proof.
  split; [vm_compute; reflexivity|]. split; [vm_compute; reflexivity|].
  apply (X3_poll_brings_binding_and_pointer_together switched).
  unfold switched. apply reach_step, reach_mount.
Defined.

(** X4: when [sendMessage] was called with no session bound and the answer
    is read, the next run of [checkSessionChange] leaves the state alone
    exactly when the returned session id is a string.  For any other id (a
    number, say) the stored text differs from the id kept as last seen: the
    check takes it for a session change, empties the transcript and binds
    the text form of the id. *)
Theorem X4_only_a_string_id_keeps_the_poll_quiet
    (s : State) (k_sessionId : jsval) (k_selectedDb : DbScope) (ok : bool)
    (data : QueryData) :
  truthy k_sessionId = false ->
  let s3 :=
    sendMessage_resume k_sessionId k_selectedDb (Resolved ok (Some data)) s in
  (checkSessionChange s3 = s3 <-> exists id, d_session_id data = JStr id) /\
  ((forall id, d_session_id data <> JStr id) ->
   messages (checkSessionChange s3) = [] /\
   sessionId (checkSessionChange s3) = JStr (to_string (d_session_id data)) /\
   previousSessionRef (checkSessionChange s3) =
     JStr (to_string (d_session_id data))).
Proof.
  intros Hf s3.
  assert (Hst : lastSessionId s3 = Some (to_string (d_session_id data)) /\
                previousSessionRef s3 = d_session_id data /\
                messages s3 <> []).
  { subst s3. unfold sendMessage_resume. rewrite Hf. cbn.
    repeat split. intros H. apply app_eq_nil in H as [_ H]. discriminate. }
  destruct Hst as (Hl & Hp & Hm). clearbody s3.
  assert (Hiff : of_storage (lastSessionId s3) = previousSessionRef s3 <->
                 exists id, d_session_id data = JStr id).
  { rewrite Hl, Hp. cbn. split.
    - intros H. eauto.
    - intros [id ->]. reflexivity. }
  split.
  - rewrite <- Hiff. split.
    + intros He.
      destruct (decide (of_storage (lastSessionId s3) = previousSessionRef s3))
        as [|Hne]; [assumption|].
      rewrite checkSessionChange_changed in He by exact Hne.
      exfalso. apply Hm. rewrite <- He. reflexivity.
    + intros He. unfold checkSessionChange. rewrite decide_True by exact He.
      reflexivity.
  - intros Hno.
    assert (Hne : of_storage (lastSessionId s3) <> previousSessionRef s3).
    { intros He. apply Hiff in He as [id He]. exact (Hno id He). }
    rewrite checkSessionChange_changed by exact Hne. cbn.
    rewrite Hl. cbn. auto.
Qed.

Lemma X4_witness :
  let s3 :=
    sendMessage_resume JNull Local (Resolved true (Some answer_numeric))
      (st asked) in
  messages (checkSessionChange s3) = [] /\
  sessionId s3 = JNum 5 /\
  sessionId (checkSessionChange s3) = JStr "5".
Proof.
  intros s3.
  destruct (X4_only_a_string_id_keeps_the_poll_quiet (st asked) JNull Local
              true answer_numeric eq_refl) as [_ H].
  destruct H as (Hm & Hs & _); [discriminate|].
  split; [exact Hm|]. split; [reflexivity|exact Hs].
Defined.

(** ** Mounting and resuming *)

(** X5: mounting resumes the stored session.  The transcript starts empty,
    the stored value becomes the bound id and the last value seen, and
    exactly one history request is started when that value is usable (a
    non-empty string); with nothing stored, or an empty string, no request
    is started and no spinner is shown. *)
Theorem X5_mount_resumes_the_stored_session (stored : option string) :
  messages (st (mount stored)) = [] /\
  sessionId (st (mount stored)) = of_storage stored /\
  previousSessionRef (st (mount stored)) = of_storage stored /\
  lastSessionId (st (mount stored)) = stored /\
  inflight (mount stored) =
    (if truthy (of_storage stored) then [HistoryK (of_storage stored)]
     else []) /\
  loadingHistory (st (mount stored)) = truthy (of_storage stored) /\
  loading (st (mount stored)) = false /\
  isRegenerating (st (mount stored)) = false.
Proof.
  unfold mount, after_render, checkSessionChange.
  destruct stored as [id|]; cbn.
  - destruct (decide (JStr id = JNull)) as [|_]; [discriminate|]. cbn.
    destruct (decide (JStr id = JNull)) as [|_]; [discriminate|].
    unfold loadChatHistory. cbn.
    destruct (String.eqb id ""); cbn; repeat split; reflexivity.
  - repeat split; reflexivity.
Qed.

(** X6: a session bound by the first answer survives a reload: when
    [sendMessage] was called with no session bound and the answer carries a
    string id, mounting the component afresh over the storage that answer
    left behind binds the same id again. *)
Theorem X6_bound_session_survives_a_reload
    (s : State) (k_sessionId : jsval) (k_selectedDb : DbScope) (ok : bool)
    (data : QueryData) (id : string) :
  truthy k_sessionId = false ->
  d_session_id data = JStr id ->
  let s3 :=
    sendMessage_resume k_sessionId k_selectedDb (Resolved ok (Some data)) s in
  sessionId s3 = JStr id /\
  sessionId (st (mount (lastSessionId s3))) = sessionId s3 /\
  (id <> "" -> inflight (mount (lastSessionId s3)) = [HistoryK (JStr id)]).
Proof.
  intros Hf Hid s3.
  assert (Hs : sessionId s3 = JStr id /\ lastSessionId s3 = Some id).
  { subst s3. unfold sendMessage_resume. rewrite Hf, Hid. cbn. auto. }
  destruct Hs as [Hs Hl]. clearbody s3. rewrite Hs, Hl.
  split; [reflexivity|].
  unfold mount, after_render, checkSessionChange. cbn.
  destruct (decide (JStr id = JNull)) as [|_]; [discriminate|]. cbn.
  destruct (decide (JStr id = JNull)) as [|_]; [discriminate|].
  unfold loadChatHistory. cbn.
  destruct (String.eqb_spec id ""); cbn; split; auto; congruence.
Qed.

Lemma X6_witness :
  let s3 :=
    sendMessage_resume JNull Local (Resolved true (Some answer_s1))
      (st asked) in
  sessionId s3 = JStr "s1" /\
  sessionId (st (mount (lastSessionId s3))) = sessionId s3 /\
  ("s1" <> "" -> inflight (mount (lastSessionId s3)) = [HistoryK (JStr "s1")]).
Proof.
  apply (X6_bound_session_survives_a_reload (st asked) JNull Local true
           answer_s1 "s1"); reflexivity.
Defined.

(** ** New conversation *)

(** X7: after New Chat the transcript is empty, no session is bound, the
    shared pointer is removed and the last value seen is null, so the next
    poll tick changes nothing.  New Chat cancels nothing: the requests in
    flight and the busy flags stay as they were. *)
Theorem X7_new_chat_clears_and_stays_quiet (w : World) :
  messages (st (step w ClickNewChat)) = [] /\
  sessionId (st (step w ClickNewChat)) = JNull /\
  previousSessionRef (st (step w ClickNewChat)) = JNull /\
  lastSessionId (st (step w ClickNewChat)) = None /\
  inflight (step w ClickNewChat) = inflight w /\
  loading (st (step w ClickNewChat)) = loading (st w) /\
  isRegenerating (st (step w ClickNewChat)) = isRegenerating (st w) /\
  step (step w ClickNewChat) Tick = step w ClickNewChat.
Proof.
  assert (H : messages (st (step w ClickNewChat)) = [] /\
              sessionId (st (step w ClickNewChat)) = JNull /\
              previousSessionRef (st (step w ClickNewChat)) = JNull /\
              lastSessionId (st (step w ClickNewChat)) = None /\
              inflight (step w ClickNewChat) = inflight w /\
              loading (st (step w ClickNewChat)) = loading (st w) /\
              isRegenerating (st (step w ClickNewChat)) =
                isRegenerating (st w)).
  { unfold step, after_render. cbn [handle]. unfold startNewChat. cbn.
    case_decide; cbn; repeat split; reflexivity. }
  destruct H as (H1 & H2 & H3 & H4 & H5 & H6 & H7).
  repeat (split; [assumption|]).
  apply step_Tick_unchanged. rewrite H3, H4. reflexivity.
Qed.

(** ** Replies that arrive late *)

Lemma handle_inflight_Forall (P : Cont -> Prop) (w : World) (e : Event) :
  Forall P (inflight w) ->
  (forall s1 k, sendMessage (st w) = Awaiting s1 k -> P k) ->
  (forall s1 k, saveEditedMessage (st w) = Awaiting s1 k -> P k) ->
  Forall P (inflight (handle w e)).
Proof.
  intros Hw Hsend Hedit.
  assert (Hsettle : forall o,
             (forall s1 k, o = Awaiting s1 k -> P k) ->
             Forall P (inflight (settle w o))).
  { intros [s1| |s1 k] Ho; cbn; auto.
    apply Forall_app. split; [assumption|]. constructor; eauto. }
  destruct e; cbn [handle]; auto.
  - destruct (loading (st w)); auto.
  - destruct (blank t); auto.
  - destruct (send_disabled (st w)); auto.
  - destruct (loading (st w)); auto.
  - destruct (messages (st w) !! idx) as [msg|]; auto.
    destruct (_ && _); auto. destruct (content msg); auto.
  - destruct (edit_box (st w)); auto.
  - destruct (_ && _); auto.
  - destruct (_ && _); auto.
  - destruct (inflight w !! n) as [[? ? ?|? ?|?]|]; cbn;
      auto using Forall_delete.
  - destruct (inflight w !! n) as [[? ? ?|? ?|?]|]; cbn;
      auto using Forall_delete.
Qed.

Lemma reachable_well_issued (w : World) :
  reachable w -> Forall well_issued (inflight w).
Proof.
  assert (Hrender : forall before w0,
             Forall well_issued (inflight w0) ->
             Forall well_issued (inflight (after_render before w0))).
  { intros before w0 H0. unfold after_render. case_decide; [assumption|].
    unfold loadChatHistory. destruct (truthy _); cbn; [|assumption].
    apply Forall_app. split; [assumption|]. repeat constructor. }
  induction 1 as [stored|w e Hw IH].
  - unfold mount. apply Hrender. constructor.
  - apply Hrender, handle_inflight_Forall; [assumption| |].
    + intros s1 k (body & Hk & _)%sendMessage_issued.
      destruct k; cbn in *; tauto.
    + intros s1 k (body & i & m & Hk & _)%saveEditedMessage_issued.
      destruct k; cbn in *; tauto.
Qed.

Lemma well_issued_issued (k : Cont) :
  well_issued k -> is_history k = false ->
  exists body, issued k body /\ request_of k = Some body.
Proof. destruct k; cbn; intros; try discriminate; eauto. Qed.

(** Neither New Chat nor a poll tick removes a request in flight. *)
Lemma clearing_keeps_requests (w : World) (e : Event) :
  e = ClickNewChat \/ e = Tick ->
  exists more, inflight (step w e) = inflight w ++ more.
Proof.
  assert (Hrender : forall before w0,
             exists more, inflight (after_render before w0) =
                          inflight w0 ++ more).
  { intros before w0. unfold after_render. case_decide.
    - exists []. rewrite app_nil_r. reflexivity.
    - unfold loadChatHistory. destruct (truthy _); cbn; eauto.
      exists []. rewrite app_nil_r. reflexivity. }
  intros [-> | ->]; unfold step;
    destruct (Hrender (sessionId (st w)) (handle w ClickNewChat)) as [m1 H1];
    destruct (Hrender (sessionId (st w)) (handle w Tick)) as [m2 H2];
    eauto.
Qed.

(** X8: a query that is in flight when the transcript is cleared, by New
    Chat or by a poll tick that sees another session, stays in flight; when
    its reply arrives it is appended to the transcript as it then stands (the
    emptied one, or the other session's), as an assistant message stamped
    with the scope of the request.  Nothing is discarded. *)
Theorem X8_reply_after_clearing_is_still_appended
    (w : World) (e : Event) (n : nat) (k : Cont) :
  reachable w ->
  e = ClickNewChat \/ e = Tick ->
  inflight w !! n = Some k ->
  is_history k = false ->
  inflight (step w e) !! n = Some k /\
  exists body,
    request_of k = Some body /\
    forall r : FetchResult QueryData,
    exists a,
      messages (st (handle (step w e) (QueryDone n r))) =
        messages (st (step w e)) ++ [a] /\
      role a = JStr "assistant" /\
      dbScope a = db_scope body.
Proof.
  intros Hw He Hn Hk.
  destruct (clearing_keeps_requests w e He) as [more Hmore].
  assert (Hn' : inflight (step w e) !! n = Some k).
  { rewrite Hmore. apply lookup_app_l_Some. exact Hn. }
  split; [exact Hn'|].
  pose proof (reachable_well_issued w Hw) as Hall.
  eapply (proj1 (Forall_lookup _ _)) in Hall; [|exact Hn].
  destruct (well_issued_issued k Hall Hk) as (body & Hi & Hreq).
  exists body. split; [exact Hreq|]. intros r.
  destruct (resume_query_appends k body r (st (step w e)) Hi)
    as (a & Hm & _ & Hr & Hs & _).
  exists a. cbn [handle]. rewrite Hn'.
  destruct k; try discriminate; cbn in *; auto.
Qed.

Lemma X8_witness :
  messages (st (step asked ClickNewChat)) = [] /\
  inflight (step asked ClickNewChat) !! 0 =
    Some (SendK {| query := "What is X?"; session_id := JNull;
                   use_rag := true; db_scope := JStr "local" |}
                JNull Local) /\
  exists body,
    request_of
      (SendK {| query := "What is X?"; session_id := JNull;
                use_rag := true; db_scope := JStr "local" |} JNull Local) =
      Some body /\
    forall r : FetchResult QueryData,
    exists a,
      messages (st (handle (step asked ClickNewChat) (QueryDone 0 r))) =
        messages (st (step asked ClickNewChat)) ++ [a] /\
      role a = JStr "assistant" /\
      dbScope a = db_scope body.
Proof.
  split; [vm_compute; reflexivity|].
  apply (X8_reply_after_clearing_is_still_appended asked ClickNewChat 0).
  - unfold asked. apply run_reachable, reach_mount.
  - left. reflexivity.
  - vm_compute. reflexivity.
  - reflexivity.
Defined.

(** ** The save button *)

Lemma editAndTruncate_target (msgs updated : list Message) (i : nat)
    (m : Message) (text : string) :
  msgs !! i = Some m ->
  editAndTruncate msgs i text = Some updated ->
  updated !! i = Some (set_content (JStr text) m).
Proof.
  intros Hi. unfold editAndTruncate. rewrite Hi. cbv zeta.
  destruct (_ !! (i + 1)) as [next|].
  - destruct (decide _); intros [= <-].
    + rewrite list_lookup_delete_lt by lia. eapply edited_at, Hi.
    + eapply edited_at, Hi.
  - intros [= <-]. eapply edited_at, Hi.
Qed.

(** X9: whenever the save button of the edit box can be clicked (the box
    is shown, no regeneration is running, the text is not blank), a click
    never fails or backs out: the target is an existing user message, its
    content becomes the edited text, the edit box closes, [isRegenerating]
    is set and exactly one request is added, asking the edited text in the
    bound session. *)
Theorem X9_enabled_save_always_dispatches (w : World) :
  edit_box (st w) = true ->
  save_disabled (st w) = false ->
  exists i m body scope,
    editingIndex (st w) = Some i /\
    messages (st w) !! i = Some m /\
    role m = JStr "user" /\
    messages (st (step w ClickSave)) !! i =
      Some (set_content (JStr (editingText (st w))) m) /\
    isRegenerating (st (step w ClickSave)) = true /\
    editingIndex (st (step w ClickSave)) = None /\
    editingText (st (step w ClickSave)) = "" /\
    inflight (step w ClickSave) = inflight w ++ [EditK body scope] /\
    query body = editingText (st w) /\
    session_id body = sessionId (st w).
Proof.
  intros Hbox Hsave.
  assert (Hb : blank (editingText (st w)) = false).
  { unfold save_disabled in Hsave. apply orb_false_iff in Hsave. tauto. }
  unfold step. cbn [handle]. rewrite Hbox, Hsave. cbn [andb negb].
  unfold edit_box in Hbox.
  destruct (editingIndex (st w)) as [i|] eqn:Hi; [|discriminate].
  destruct (messages (st w) !! i) as [m|] eqn:Hm; [|discriminate].
  apply bool_decide_eq_true in Hbox.
  destruct (saveEditedMessage_installs (st w) i m Hb Hi Hm)
    as (updated & Hu & Heq).
  rewrite Heq. cbn [settle]. unfold after_render. cbn [st sessionId
    setEditingText setEditingIndex setMessages setIsRegenerating].
  rewrite decide_True by reflexivity. cbn.
  eexists i, m, _, _. repeat (split; [reflexivity || assumption|]).
  split; [eapply editAndTruncate_target; eassumption|].
  repeat split; reflexivity.
Qed.

Lemma X9_witness :
  exists i m body scope,
    editingIndex (st editing_local) = Some i /\
    messages (st editing_local) !! i = Some m /\
    role m = JStr "user" /\
    messages (st (step editing_local ClickSave)) !! i =
      Some (set_content (JStr (editingText (st editing_local))) m) /\
    isRegenerating (st (step editing_local ClickSave)) = true /\
    editingIndex (st (step editing_local ClickSave)) = None /\
    editingText (st (step editing_local ClickSave)) = "" /\
    inflight (step editing_local ClickSave) =
      inflight editing_local ++ [EditK body scope] /\
    query body = editingText (st editing_local) /\
    session_id body = sessionId (st editing_local).
Proof.
  apply (X9_enabled_save_always_dispatches editing_local);
    vm_compute; reflexivity.
Defined.

(** ** What never touches the transcript *)

Lemma handle_keeps_session (w : World) (e : Event) :
  appends_only e = true ->
  (forall n r, e <> QueryDone n r) ->
  sessionId (st (handle w e)) = sessionId (st w).
Proof.
  intros Ha Hq. destruct e; try discriminate; cbn [handle]; auto.
  - destruct (loading (st w)); auto.
  - destruct (blank t); auto.
  - destruct (send_disabled (st w)); auto.
    unfold sendMessage. destruct (blank _); auto.
  - destruct (loading (st w)); auto.
    unfold sendMessage. destruct (blank _); auto.
  - destruct (messages (st w) !! idx) as [msg|]; auto.
    destruct (_ && _); auto. destruct (content msg); auto.
  - destruct (edit_box (st w)); auto.
  - destruct (_ && _); auto.
  - exfalso. exact (Hq n r eq_refl).
Qed.

Lemma sendMessage_prefix (w : World) :
  messages (st w) `prefix_of` messages (st (settle w (sendMessage (st w)))).
Proof.
  unfold sendMessage. destruct (blank _); cbn; [reflexivity|].
  apply prefix_app_r. reflexivity.
Qed.

Lemma resume_query_prefix (k : Cont) (r : FetchResult QueryData)
    (s : State) :
  messages s `prefix_of` messages (resume_query k r s).
Proof.
  destruct k as [b ksid kdb|b ksc|ksid]; cbn; [| |reflexivity].
  - unfold sendMessage_resume.
    destruct r as [|ok [data|]]; [|destruct (truthy ksid)|]; cbn;
      apply prefix_app_r; reflexivity.
  - unfold saveEditedMessage_resume.
    destruct r as [|ok [data|]]; cbn; apply prefix_app_r; reflexivity.
Qed.

(** X10: typing, voice input, choosing a scope, sending, opening, typing
    in or cancelling an edit, a write to the shared pointer and the reply
    to a query never remove or alter a message: the transcript before the
    event is a prefix of the transcript after its handler.  Except for a
    reply, the same holds after the render that follows. *)
Theorem X10_transcript_only_grows (w : World) (e : Event) :
  appends_only e = true ->
  messages (st w) `prefix_of` messages (st (handle w e)) /\
  ((forall n r, e <> QueryDone n r) ->
   messages (st w) `prefix_of` messages (st (step w e))).
Proof.
  intros Ha.
  assert (H : messages (st w) `prefix_of` messages (st (handle w e))).
  { destruct e; try discriminate; cbn [handle]; try reflexivity.
    - destruct (loading (st w)); reflexivity.
    - destruct (blank t); reflexivity.
    - destruct (send_disabled (st w)); [reflexivity|apply sendMessage_prefix].
    - destruct (loading (st w)); [reflexivity|apply sendMessage_prefix].
    - destruct (messages (st w) !! idx) as [msg|]; [|reflexivity].
      destruct (_ && _); [|reflexivity].
      destruct (content msg); reflexivity.
    - destruct (edit_box (st w)); reflexivity.
    - destruct (_ && _); reflexivity.
    - destruct (inflight w !! n) as [[body ks kd|body ksc|ksid]|];
        try reflexivity; cbn [st].
      + apply (resume_query_prefix (SendK body ks kd)).
      + apply (resume_query_prefix (EditK body ksc)). }
  split; [exact H|].
  intros Hq. unfold step, after_render.
  rewrite decide_True by (apply handle_keeps_session; assumption).
  exact H.
Qed.

Lemma X10_witness :
  messages (st regenerating) = [user_message "Q1-revised" Local] /\
  messages (st (step regenerating ClickSend)) =
    [user_message "Q1-revised" Local; user_message "Q2" Local] /\
  messages (st regenerating)
    `prefix_of` messages (st (handle regenerating ClickSend)) /\
  ((forall n r, ClickSend <> QueryDone n r) ->
   messages (st regenerating)
     `prefix_of` messages (st (step regenerating ClickSend))).
Proof.
  split; [vm_compute; reflexivity|]. split; [vm_compute; reflexivity|].
  apply (X10_transcript_only_grows regenerating ClickSend). reflexivity.
Defined.

(** ** Voice input *)

Lemma append_empty_r (a : string) : String.append a "" = a.
Proof.
  induction a as [|c a IH]; [reflexivity|].
  change (String c (String.append a "") = String c a). congruence.
Qed.

Lemma append_assoc (a b c : string) :
  String.append (String.append a b) c = String.append a (String.append b c).
Proof.
  induction a as [|x a IH]; [reflexivity|].
  change (String x (String.append (String.append a b) c) =
          String x (String.append a (String.append b c))).
  congruence.
Qed.

Lemma fold_final_filter (results : list (bool * string)) (acc : string) :
  fold_left
    (fun (acc : string) (r : bool * string) =>
       if fst r then String.append acc (String.append (snd r) " ") else acc)
    results acc =
  fold_left
    (fun (acc : string) (r : bool * string) =>
       if fst r then String.append acc (String.append (snd r) " ") else acc)
    (List.filter fst results) acc.
Proof.
  revert acc. induction results as [|[[] t] rs IH]; intros acc; simpl; auto.
Qed.

Lemma fold_final_interim (results : list (bool * string)) (acc : string) :
  Forall (fun r => fst r = false) results ->
  fold_left
    (fun (acc : string) (r : bool * string) =>
       if fst r then String.append acc (String.append (snd r) " ") else acc)
    results acc = acc.
Proof.
  intros H. revert acc.
  induction H as [|[f t] rs Hf _ IH]; intros acc; simpl; [reflexivity|].
  simpl in Hf. subst f. apply IH.
Qed.

Lemma finalTranscript_filter (results : list (bool * string)) :
  finalTranscript results = finalTranscript (List.filter fst results).
Proof. apply fold_final_filter. Qed.

Lemma finalTranscript_interim (results : list (bool * string)) :
  Forall (fun r => fst r = false) results -> finalTranscript results = "".
Proof. apply fold_final_interim. Qed.

(** X11: a voice result never erases what is in the input area: the input
    after it is the input before it followed by the spoken text, and the
    transcript is untouched.  The spoken text is built from the final
    results only, so an event whose results are all interim changes
    nothing.  The event loop delivers exactly this handler. *)
Theorem X11_voice_results_extend_the_input
    (results : list (bool * string)) (w : World) :
  (exists spoken,
      input (onresult results (st w)) = String.append (input (st w)) spoken) /\
  messages (onresult results (st w)) = messages (st w) /\
  finalTranscript results = finalTranscript (List.filter fst results) /\
  (Forall (fun r => fst r = false) results ->
   onresult results (st w) = st w) /\
  handle w (VoiceFinal (finalTranscript results)) =
    with_state w (onresult results (st w)).
Proof.
  split.
  { unfold onresult. destruct (blank _); cbn.
    - exists "". rewrite append_empty_r. reflexivity.
    - eauto. }
  split; [unfold onresult; destruct (blank _); reflexivity|].
  split; [apply finalTranscript_filter|].
  split.
  { intros Hi. unfold onresult.
    rewrite finalTranscript_interim by exact Hi. reflexivity. }
  cbn [handle]. unfold onresult. destruct (blank _).
  - rewrite with_state_same. reflexivity.
  - reflexivity.
Qed.

Lemma X11_witness :
  input (onresult [(false, "hel"); (true, "hello"); (true, "world")]
           (setInput "say: " (st (mount None)))) = "say: hello world " /\
  (Forall (fun r => fst r = false) [(false, "hel")] ->
   onresult [(false, "hel")] (st (mount None)) = st (mount None)).
Proof.
  split; [vm_compute; reflexivity|].
  exact (proj1 (proj2 (proj2 (proj2
           (X11_voice_results_extend_the_input [(false, "hel")]
              (mount None)))))).
Defined.

(** ** Export *)

Lemma fold_append_from (f : Message -> string) (msgs : list Message)
    (acc : string) :
  fold_left (fun (markdown : string) (msg : Message) =>
               String.append markdown (f msg)) msgs acc =
  String.append acc
    (fold_left (fun (markdown : string) (msg : Message) =>
                  String.append markdown (f msg)) msgs "").
Proof.
  revert acc. induction msgs as [|m msgs IH]; intros acc; simpl.
  - rewrite append_empty_r. reflexivity.
  - change (String.append "" (f m)) with (f m).
    rewrite IH. rewrite (IH (f m)). rewrite append_assoc. reflexivity.
Qed.

Lemma export_body_app (l1 l2 : list Message) :
  export_body (l1 ++ l2) = String.append (export_body l1) (export_body l2).
Proof.
  unfold export_body. rewrite fold_left_app. apply fold_append_from.
Qed.

(** X12: an empty transcript is not exported.  A transcript with messages
    is exported as the header, which states their number, followed by one
    block per message in transcript order: the blocks of a continued
    transcript are the blocks of the earlier one followed by those of the
    new messages. *)
Theorem X12_export_lists_the_messages_in_order
    (now : string) (l1 l2 : list Message) :
  exportChatAsMarkdown now [] = None /\
  (l1 <> [] ->
   exportChatAsMarkdown now l1 =
     Some (String.append (export_header now (length l1)) (export_body l1))) /\
  export_body (l1 ++ l2) = String.append (export_body l1) (export_body l2) /\
  (l1 ++ l2 <> [] ->
   exportChatAsMarkdown now (l1 ++ l2) =
     Some (String.append (export_header now (length l1 + length l2))
             (String.append (export_body l1) (export_body l2)))).
Proof.
  assert (H : forall l, l <> [] ->
            exportChatAsMarkdown now l =
            Some (String.append (export_header now (length l))
                    (export_body l))).
  { intros [|m l] Hl; [contradiction|].
    unfold exportChatAsMarkdown, export_body.
    rewrite fold_append_from. reflexivity. }
  split; [reflexivity|]. split; [apply H|].
  split; [apply export_body_app|].
  intros Hl. rewrite H by exact Hl.
  rewrite length_app, export_body_app. reflexivity.
Qed.

Lemma X12_witness :
  [user_message "Q1" Shared] <> [] /\
  exportChatAsMarkdown "today" [user_message "Q1" Shared] =
    Some (String.append (export_header "today" 1)
            (String.concat ""
               ["## 👤 User (Shared DB)"; nl; nl; "Q1"; nl; nl;
                "---"; nl; nl])).
Proof.
  assert (H : [user_message "Q1" Shared] <> []) by discriminate.
  split; [exact H|].
  rewrite (proj1 (proj2 (X12_export_lists_the_messages_in_order "today"
                           [user_message "Q1" Shared] [])) H).
  vm_compute. reflexivity.
Defined.

(** ** The session list and the chat page *)

Lemma storage_write_invariant (w : World) (v : option string) :
  invariant w -> invariant (with_state w (storage_write v (st w))).
Proof. intros [H1 H2 H3]. constructor; assumption. Qed.

(** A write to the shared pointer is the [StorageWrite] event of the chat
    page: the shell moves the page along its own event loop. *)
Lemma step_StorageWrite (w : World) (v : option string) :
  step w (StorageWrite v) = with_state w (storage_write v (st w)).
Proof.
  unfold step, after_render. cbn. rewrite decide_True by reflexivity.
  reflexivity.
Qed.

Lemma handleSessionSelect_reachable (a : Shell) (sid : jsval) :
  reachable (page a) -> reachable (page (handleSessionSelect sid a)).
Proof.
  intros Hw. cbn [page handleSessionSelect].
  rewrite <- step_StorageWrite. apply reach_step, Hw.
Qed.

(** What the chat page does at the next tick after the shared pointer was
    set to [v]. *)
Lemma tick_after_storage_write (w : World) (v : option string) :
  invariant w ->
  let w1 := step (with_state w (storage_write v (st w))) Tick in
  sessionId (st w1) = of_storage v /\
  (of_storage v = sessionId (st w) ->
   messages (st w1) = messages (st w) /\ inflight w1 = inflight w) /\
  (of_storage v <> sessionId (st w) ->
   messages (st w1) = [] /\
   inflight w1 =
     inflight w ++
       (if truthy (of_storage v) then [HistoryK (of_storage v)] else [])).
Proof.
  intros Hw w1. pose proof Hw as [_ _ Hsync].
  pose proof (storage_write_invariant w v Hw) as Hw'.
  destruct (decide (of_storage v = previousSessionRef (st w))) as [He|Hne].
  - subst w1. rewrite step_Tick_unchanged by exact He. cbn.
    split; [congruence|]. split; [auto|]. intros Hd. congruence.
  - destruct (step_Tick_changed_state _ Hw' Hne) as (Hm & Hs & _ & _ & Hi).
    subst w1. cbn in Hs, Hi. split; [exact Hs|].
    split; [intros Hd; congruence|]. intros _. split; assumption.
Qed.

(** X13: selecting a session in the sidebar records it in the shell and
    writes its text form to the shared pointer (or removes the pointer for
    a null id).  At its next tick the chat page binds that value; when it
    is the session already bound nothing else happens, neither the
    transcript nor the requests change; otherwise the transcript is emptied
    and one history request for it is started (none for a null id). *)
Theorem X13_selecting_a_session_switches_the_chat (a : Shell) (sid : jsval) :
  reachable (page a) ->
  let new := if truthy sid then JStr (to_string sid) else JNull in
  let w1 := step (page (handleSessionSelect sid a)) Tick in
  currentSessionId (handleSessionSelect sid a) = sid /\
  sessionId (st w1) = new /\
  (new = sessionId (st (page a)) ->
   messages (st w1) = messages (st (page a)) /\
   inflight w1 = inflight (page a)) /\
  (new <> sessionId (st (page a)) ->
   messages (st w1) = [] /\
   inflight w1 =
     inflight (page a) ++ (if truthy new then [HistoryK new] else [])).
Proof.
  intros Hw new w1. split; [reflexivity|].
  pose proof (tick_after_storage_write (page a)
                (if truthy sid then Some (to_string sid) else None)
                (reachable_invariant _ Hw)) as H.
  cbv zeta in H.
  replace (of_storage (if truthy sid then Some (to_string sid) else None))
    with new in H by (subst new; destruct (truthy sid); reflexivity).
  exact H.
Qed.

Lemma X13_witness :
  let a := {| currentSessionId := JNull; page := mount None |} in
  let w1 := step (page (handleSessionSelect (JNum 7) a)) Tick in
  sessionId (st w1) = JStr "7" /\
  messages (st w1) = [] /\
  inflight w1 = [HistoryK (JStr "7")].
Proof.
  intros a w1.
  destruct (X13_selecting_a_session_switches_the_chat a (JNum 7))
    as (_ & Hs & _ & Hd); [apply reach_mount|].
  destruct Hd as [Hm Hi]; [discriminate|].
  split; [exact Hs|]. split; [exact Hm|exact Hi].
Defined.

(** X14: deleting a session from the list touches the shell and the shared
    pointer only when the dialog was confirmed, the server acknowledged the
    deletion and the deleted id is the one the shell held as current when
    the button was clicked: then the current id becomes null and the
    pointer is removed, so that the chat page unbinds at its next tick and,
    if it had a session bound, empties its transcript.  In every other case
    (dialog dismissed, error status, server unreachable, another session)
    the shell and the pointer are exactly as they were. *)
Theorem X14_delete_unbinds_only_the_current_session
    (confirmed : bool) (id : jsval) (r : FetchResult unit) (a a2 : Shell) :
  (confirmed = true -> acknowledged r = true -> id = currentSessionId a ->
   currentSessionId (delete_session confirmed id r a a2) = JNull /\
   lastSessionId (st (page (delete_session confirmed id r a a2))) = None /\
   (reachable (page a2) ->
    let w1 := step (page (delete_session confirmed id r a a2)) Tick in
    sessionId (st w1) = JNull /\
    (sessionId (st (page a2)) <> JNull -> messages (st w1) = []))) /\
  (confirmed = false \/ acknowledged r = false \/ id <> currentSessionId a ->
   delete_session confirmed id r a a2 = a2).
Proof.
  split.
  - intros -> Hr ->. unfold delete_session, handleDelete, handleDelete_resume.
    destruct r as [|[] j]; try discriminate. cbn [fst snd].
    rewrite decide_True by reflexivity.
    split; [reflexivity|]. split; [reflexivity|].
    intros Hw. cbn [page handleSessionSelect truthy].
    destruct (tick_after_storage_write (page a2) None
                (reachable_invariant _ Hw)) as (Hs & _ & Hd).
    split; [exact Hs|]. intros Hne. apply Hd. cbn. congruence.
  - unfold delete_session, handleDelete, handleDelete_resume.
    intros [-> | [Hr | Hne]]; [reflexivity| |].
    + destruct confirmed; [|reflexivity].
      destruct r as [|[] j]; try discriminate; reflexivity.
    + destruct confirmed; [|reflexivity].
      destruct r as [|[] j]; try reflexivity. cbn [fst snd].
      rewrite decide_False by exact Hne. reflexivity.
Qed.

Lemma X14_witness :
  (currentSessionId
     (delete_session true (JStr "s1") (Resolved true None)
        shell_on_s1 shell_on_s1) = JNull /\
   messages (st (page shell_on_s1)) <> [] /\
   messages
     (st (step (page (delete_session true (JStr "s1") (Resolved true None)
                        shell_on_s1 shell_on_s1)) Tick)) = []) /\
  delete_session true (JStr "s1") (Resolved false None)
    shell_on_s1 shell_on_s1 = shell_on_s1.
Proof.
  destruct (X14_delete_unbinds_only_the_current_session true (JStr "s1")
              (Resolved true None) shell_on_s1 shell_on_s1) as [H _].
  destruct H as (Hc & _ & Ht); [reflexivity|reflexivity|reflexivity|].
  destruct Ht as [_ Hm].
  { unfold shell_on_s1. apply handleSessionSelect_reachable.
    cbn [page]. apply run_reachable, reach_mount. }
  split.
  - split; [exact Hc|]. split; [vm_compute; discriminate|].
    apply Hm. vm_compute. discriminate.
  - apply (proj2 (X14_delete_unbinds_only_the_current_session true
                    (JStr "s1") (Resolved false None)
                    shell_on_s1 shell_on_s1)).
    right. left. reflexivity.
Defined.

(** X15: a history request that is in flight when the transcript is
    cleared, by New Chat or by a poll tick that sees another session, stays
    in flight; when it completes with success its records replace the
    transcript of the conversation then shown, whatever session is bound by
    then, and the binding itself is left alone. *)
Theorem X15_history_of_a_left_session_is_still_installed
    (w : World) (e : Event) (n : nat) (sid : jsval)
    (data : list HistoryRecord) :
  e = ClickNewChat \/ e = Tick ->
  inflight w !! n = Some (HistoryK sid) ->
  let w1 := step w e in
  let w2 := step w1 (HistoryDone n (Resolved true (Some data))) in
  inflight w1 !! n = Some (HistoryK sid) /\
  messages (st w2) = map loaded_message data /\
  sessionId (st w2) = sessionId (st w1) /\
  lastSessionId (st w2) = lastSessionId (st w1).
Proof.
  intros He Hn w1 w2.
  destruct (clearing_keeps_requests w e He) as [more Hmore].
  assert (Hn' : inflight w1 !! n = Some (HistoryK sid)).
  { subst w1. rewrite Hmore. apply lookup_app_l_Some. exact Hn. }
  split; [exact Hn'|]. subst w2.
  assert (Hstep : step w1 (HistoryDone n (Resolved true (Some data))) =
                  {| st := loadChatHistory_resume
                             (Resolved true (Some data)) (st w1);
                     inflight := delete n (inflight w1) |}).
  { unfold step. cbn [handle]. rewrite Hn'. unfold after_render.
    rewrite decide_True by reflexivity. reflexivity. }
  rewrite Hstep. split; [reflexivity|]. split; reflexivity.
Qed.

Lemma X15_witness :
  let w := mount (Some "s1") in
  let w1 := step w ClickNewChat in
  let w2 := step w1 (HistoryDone 0 (Resolved true (Some greeting_history))) in
  sessionId (st w1) = JNull /\
  inflight w1 !! 0 = Some (HistoryK (JStr "s1")) /\
  messages (st w2) = map loaded_message greeting_history /\
  sessionId (st w2) = sessionId (st w1) /\
  lastSessionId (st w2) = lastSessionId (st w1).
Proof.
  intros w w1 w2. split; [vm_compute; reflexivity|].
  apply (X15_history_of_a_left_session_is_still_installed w ClickNewChat 0
           (JStr "s1") greeting_history).
  - left. reflexivity.
  - vm_compute. reflexivity.
Defined.

(** ** Two ways to send, and opening an edit *)

(** X16: the Enter key of the input area and the send button are
    interchangeable: in every state both do the same thing.  The button is
    disabled on a blank input and the key is not, but [sendMessage] then
    returns at once. *)
Theorem X16_enter_key_equals_send_button (w : World) :
  step w KeyEnter = step w ClickSend /\
  (blank (input (st w)) = true -> step w KeyEnter = w).
Proof.
  assert (H : handle w KeyEnter = handle w ClickSend).
  { cbn [handle]. unfold send_disabled.
    destruct (loading (st w)); [reflexivity|]. cbn.
    destruct (blank (input (st w))) eqn:Hb; [|reflexivity].
    unfold sendMessage. rewrite Hb. cbn. apply with_state_same. }
  split.
  - unfold step. rewrite H. reflexivity.
  - intros Hb. unfold step. rewrite H. cbn [handle]. unfold send_disabled.
    rewrite Hb, orb_true_r. apply after_render_same.
Qed.

Lemma X16_witness :
  blank (input (st (mount None))) = true /\
  step (mount None) KeyEnter = mount None.
Proof.
  assert (H : blank (input (st (mount None))) = true)
    by (vm_compute; reflexivity).
  split; [exact H|].
  exact (proj2 (X16_enter_key_equals_send_button (mount None)) H).
Defined.

Lemma reachable_closed_edit_has_no_text (w : World) :
  reachable w -> editingIndex (st w) = None -> editingText (st w) = "".
Proof.
  assert (Hrender : forall before w0,
             (editingIndex (st w0) = None -> editingText (st w0) = "") ->
             editingIndex (st (after_render before w0)) = None ->
             editingText (st (after_render before w0)) = "").
  { intros before w0 H0. unfold after_render. case_decide; [exact H0|].
    unfold loadChatHistory. destruct (truthy _); cbn; exact H0. }
  assert (Hsave : forall s,
             match saveEditedMessage s with
             | Returned s1 => s1 = s
             | Threw => True
             | Awaiting s1 _ => editingText s1 = ""
             end).
  { intros s. unfold saveEditedMessage.
    destruct (blank _); [reflexivity|].
    destruct (editingIndex s) as [i|]; [|exact I].
    destruct (messages s !! i) as [m|]; [|exact I].
    destruct (editAndTruncate _ _ _); [reflexivity|exact I]. }
  induction 1 as [stored|w e Hw IH].
  - unfold mount. apply Hrender. cbn. unfold checkSessionChange.
    case_decide; reflexivity.
  - apply Hrender. destruct e; cbn [handle]; auto.
    + unfold checkSessionChange. case_decide; cbn; auto.
    + destruct (loading (st w)); auto.
    + destruct (blank t); auto.
    + destruct (send_disabled (st w)); auto.
      unfold sendMessage. destruct (blank _); cbn; auto.
    + destruct (loading (st w)); auto.
      unfold sendMessage. destruct (blank _); cbn; auto.
    + destruct (messages (st w) !! idx) as [msg|]; auto.
      destruct (_ && _); auto. destruct (content msg); auto.
      cbn. discriminate.
    + destruct (edit_box (st w)) eqn:Hb; auto. cbn. intros Hn.
      unfold edit_box in Hb. rewrite Hn in Hb. discriminate.
    + destruct (_ && _); auto.
      pose proof (Hsave (st w)) as Hs.
      destruct (saveEditedMessage (st w)) as [s1| |s1 k]; cbn; auto.
      subst s1. exact IH.
    + destruct (_ && _); auto.
    + destruct (inflight w !! n) as [[? ks kd|? ?|?]|]; cbn [st]; auto.
      * unfold sendMessage_resume.
        destruct r as [|ok [data|]]; [|destruct (truthy ks)|]; cbn; auto.
      * unfold saveEditedMessage_resume.
        destruct r as [|ok [data|]]; cbn; auto.
    + destruct (inflight w !! n) as [[? ? ?|? ?|?]|]; cbn [st]; auto.
      unfold loadChatHistory_resume.
      destruct r as [|[] [data|]]; cbn; auto.
Qed.

(** X17: in every state the component can reach in which [editingIndex]
    is null and no regeneration is running, a click on the Edit button of a
    user message whose content is a string opens the edit box on that
    message with its content as the text, and Cancel then puts the whole
    state back exactly as it was before the click. *)
Theorem X17_open_then_cancel_changes_nothing
    (w : World) (idx : nat) (msg : Message) (c : string) :
  reachable w ->
  editingIndex (st w) = None ->
  isRegenerating (st w) = false ->
  messages (st w) !! idx = Some msg ->
  role msg = JStr "user" ->
  content msg = JStr c ->
  editingIndex (st (step w (ClickEdit idx))) = Some idx /\
  editingText (st (step w (ClickEdit idx))) = c /\
  messages (st (step w (ClickEdit idx))) = messages (st w) /\
  step (step w (ClickEdit idx)) ClickCancel = w.
Proof.
  intros Hw Hn Hr Hm Hu Hc.
  pose proof (reachable_closed_edit_has_no_text w Hw Hn) as Ht.
  assert (Hopen : step w (ClickEdit idx) =
                  with_state w
                    (setEditingText c (setEditingIndex (Some idx) (st w)))).
  { unfold step. cbn [handle]. rewrite Hm, Hn, Hc.
    rewrite bool_decide_eq_true_2 by exact Hu.
    rewrite bool_decide_eq_false_2 by discriminate. cbn [andb negb].
    unfold after_render. cbn. rewrite decide_True by reflexivity.
    reflexivity. }
  rewrite Hopen. split; [reflexivity|]. split; [reflexivity|].
  split; [reflexivity|].
  unfold step. cbn [handle st with_state]. unfold edit_box.
  cbn [editingIndex messages setEditingText setEditingIndex isRegenerating].
  rewrite Hm, Hr, bool_decide_eq_true_2 by exact Hu. cbn [andb negb].
  unfold after_render. cbn. rewrite decide_True by reflexivity.
  destruct w as [s ks]. destruct s. cbn in *. subst. reflexivity.
Qed.

Lemma X17_witness :
  let w :=
    run (mount None)
      [TypeInput "Q1"; ClickSend;
       QueryDone 0 (Resolved true (Some answer_s1))] in
  editingIndex (st (step w (ClickEdit 0))) = Some 0 /\
  editingText (st (step w (ClickEdit 0))) = "Q1" /\
  messages (st (step w (ClickEdit 0))) = messages (st w) /\
  step (step w (ClickEdit 0)) ClickCancel = w.
Proof.
  intros w.
  apply (X17_open_then_cancel_changes_nothing w 0
           (user_message "Q1" Local) "Q1").
  - apply run_reachable, reach_mount.
  - vm_compute. reflexivity.
  - vm_compute. reflexivity.
  - vm_compute. reflexivity.
  - reflexivity.
  - reflexivity.
Defined.
